(** * travel_guide.py: model fallback loop and markdown-to-flowables parser

    A shallow embedding of the pieces of logic of [travel_guide.py] that
    carry behaviour of their own:

    - [_extract_text_from_chat_completion] and [get_travel_plan_markdown]
      (the model fallback loop),
    - [markdown_to_flowables] and the story assembled by [write_pdf],
      with the exception raised when ReportLab refuses a text, and
    - the form state and the action run on a submission.

    Python [str] values are sequences of Unicode code points; they are
    modelled as lists of code points so that the bullet sign U+2022 is one
    character, as it is for [lstrip()[1:]]. *)

From Stdlib Require Import String Ascii List NArith ZArith Bool Lia.
Import ListNotations.

Set Implicit Arguments.
Set Warnings "-register-all".

(** ** Python strings *)

Module Py.

Definition char := N.
Definition str := list char.

(** An ASCII literal of the source as a code-point list. *)
Definition lit (s : string) : str :=
  List.map N_of_ascii (list_ascii_of_string s).

Open Scope N_scope.

(** [str.isspace] on one character: the code points for which CPython's
    [Py_UNICODE_ISSPACE] holds. *)
Definition isspace (c : char) : bool :=
  ((9 <=? c) && (c <=? 13)) || ((28 <=? c) && (c <=? 32))
  || (c =? 133) || (c =? 160) || (c =? 5760)
  || ((8192 <=? c) && (c <=? 8202))
  || (c =? 8232) || (c =? 8233) || (c =? 8239) || (c =? 8287)
  || (c =? 12288).

(** The line boundaries of [str.splitlines]. *)
Definition is_linebreak (c : char) : bool :=
  ((10 <=? c) && (c <=? 13)) || ((28 <=? c) && (c <=? 30))
  || (c =? 133) || (c =? 8232) || (c =? 8233).

Close Scope N_scope.

(** [s.lstrip()] *)
Fixpoint lstrip (s : str) : str :=
  match s with
  | [] => []
  | c :: s' => if isspace c then lstrip s' else s
  end.

(** [s.rstrip()]: a character is kept when something that is not white
    space follows it, or when it is not white space itself. *)
Fixpoint rstrip (s : str) : str :=
  match s with
  | [] => []
  | c :: s' =>
      match rstrip s' with
      | [] => if isspace c then [] else [c]
      | r => c :: r
      end
  end.

(** [s.strip()] *)
Definition strip (s : str) : str := lstrip (rstrip s).

(** [s.startswith(p)] *)
Fixpoint startswith (p s : str) : bool :=
  match p, s with
  | [], _ => true
  | _ :: _, [] => false
  | a :: p', b :: s' => N.eqb a b && startswith p' s'
  end.

(** [s.startswith((p1, ..., pn))] *)
Definition startswith_any (ps : list str) (s : str) : bool :=
  existsb (fun p => startswith p s) ps.

(** [s[n:]] for a non-negative literal [n]. *)
Definition slice_from (n : nat) (s : str) : str := skipn n s.

(** [s.splitlines()]: [cur] holds the characters of the line being read,
    last one first.  A carriage return directly followed by a line feed is
    one boundary; no empty line is produced after the last boundary. *)
Fixpoint splitlines_from (cur : str) (s : str) : list str :=
  match s with
  | [] => match cur with [] => [] | _ :: _ => [rev cur] end
  | c :: s' =>
      if is_linebreak c then
        rev cur ::
          match s' with
          | d :: s'' =>
              if N.eqb c 13 && N.eqb d 10
              then splitlines_from [] s''
              else splitlines_from [] s'
          | [] => splitlines_from [] s'
          end
      else splitlines_from (c :: cur) s'
  end.

Definition splitlines (s : str) : list str := splitlines_from [] s.

(** [s == t] *)
Fixpoint eqb (s t : str) : bool :=
  match s, t with
  | [], [] => true
  | a :: s', b :: t' => N.eqb a b && eqb s' t'
  | _, _ => false
  end.

(** [sep.join(parts)] *)
Fixpoint join (sep : str) (parts : list str) : str :=
  match parts with
  | [] => []
  | [p] => p
  | p :: ps => p ++ sep ++ join sep ps
  end.

End Py.

Import Py.

(** ** Exceptions *)

(** An exception object: its class and [str(e)]. *)
Inductive exn : Type :=
| Exception (cls : string) (message : str).

Definition RuntimeError (message : str) : exn :=
  Exception "RuntimeError" message.

Definition exn_str (e : exn) : str :=
  match e with Exception _ m => m end.

(** What a Python call gives back. *)
Inductive outcome (A : Type) : Type :=
| Return (a : A)
| Raise (e : exn).
Arguments Raise {A} e.

(** ** ReportLab values built by the program *)

(** A paragraph style: an entry of the sample style sheet, or a
    [ParagraphStyle(name, parent=..., ...)] derived from one. *)
Inductive ParagraphStyle : Type :=
| SheetStyle (name : string)
| DerivedStyle (name : string) (parent : ParagraphStyle)
    (fontSize spaceBefore spaceAfter : option Z).

(** A style sheet is looked up by name: [styles[name]]. *)
Definition StyleSheet := string -> ParagraphStyle.

(** [getSampleStyleSheet()]: the library's sheet, which has an entry for
    every name the program asks for. *)
Definition getSampleStyleSheet : StyleSheet := SheetStyle.

(** The flowables the program constructs.  [ListItem] wraps one flowable
    and is itself stored in a [ListFlowable]. *)
Inductive flowable : Type :=
| Paragraph (text : str) (style : ParagraphStyle)
| Spacer (width height : Z)
| ListItem (content : flowable) (leftIndent : Z)
| ListFlowable (items : list flowable) (bulletType : string)
    (start : str) (leftIndent : Z).

(** [Paragraph(text, style)] reads its text as markup and raises when the
    markup is refused.  A text without the characters [<] and [&] holds
    no tag and no entity, and is taken as it is.  For the other texts the
    verdict of ReportLab's parser is a parameter [paragraph_error]: the
    exception raised, or [None] when the text is accepted.

    The value [Paragraph text style] holds the arguments the program
    passes; what ReportLab keeps of the text (it collapses white space)
    is its own. *)
Definition MarkupParser := str -> ParagraphStyle -> option exn.

Definition has_markup (text : str) : bool :=
  existsb (fun c => N.eqb c 60 || N.eqb c 38) text.

(** A character that is neither [<] nor [&]. *)
Definition unmarked (c : char) : Prop := (N.eqb c 60 || N.eqb c 38) = false.

Definition paragraph_check (paragraph_error : MarkupParser) (text : str)
    (style : ParagraphStyle) : option exn :=
  if has_markup text then paragraph_error text style else None.

Definition new_Paragraph (paragraph_error : MarkupParser) (text : str)
    (style : ParagraphStyle) : outcome flowable :=
  match paragraph_check paragraph_error text style with
  | Some e => Raise e
  | None => Return (Paragraph text style)
  end.

(** ** markdown_to_flowables *)

Definition bullet_sign : char := 8226%N.

(** The tuple [("-", "*", "•")]. *)
Definition bullet_prefixes : list str :=
  [lit "-"; lit "*"; [bullet_sign]].

Section Markdown.

Variable paragraph_error : MarkupParser.
Variable styles : StyleSheet.

Definition body : ParagraphStyle := styles "BodyText"%string.
Definition h2 : ParagraphStyle :=
  DerivedStyle "H2" (styles "Heading2"%string) None (Some 12%Z) (Some 6%Z).
Definition h3 : ParagraphStyle :=
  DerivedStyle "H3" (styles "Heading3"%string) None (Some 8%Z) (Some 4%Z).

(** The inner loop
    [while i < len(lines) and lines[i].lstrip().startswith(("-", "*", "•"))].
    [fuel] bounds the number of times the loop condition is evaluated;
    the loop is left by the exception of a [Paragraph] that is refused. *)
Fixpoint bullet_loop (fuel : nat) (lines : list str) (i : nat)
    (items : list flowable) : option (outcome (nat * list flowable)) :=
  match fuel with
  | O => None
  | S fuel' =>
      match nth_error lines i with
      | None => Some (Return (i, items))
      | Some raw =>
          if startswith_any bullet_prefixes (lstrip raw) then
            let bullet_text := strip (slice_from 1 (lstrip raw)) in
            match new_Paragraph paragraph_error bullet_text body with
            | Raise e => Some (Raise e)
            | Return p =>
                bullet_loop fuel' lines (S i) (items ++ [ListItem p 12])
            end
          else Some (Return (i, items))
      end
  end.

(** One pass through the body of the outer loop, entered with
    [lines[i] = raw]; it gives the next index and the extended [flow],
    or the exception raised on the way. *)
Definition loop_body (fuel : nat) (lines : list str) (i : nat) (raw : str)
    (flow : list flowable) : option (outcome (nat * list flowable)) :=
  let line := rstrip raw in
  match strip line with
  | [] => Some (Return (S i, flow ++ [Spacer 1 6]))
  | _ :: _ =>
      if startswith (lit "## ") line then
        match new_Paragraph paragraph_error (strip (slice_from 3 line)) h2 with
        | Raise e => Some (Raise e)
        | Return p => Some (Return (S i, flow ++ [p]))
        end
      else if startswith (lit "### ") line then
        match new_Paragraph paragraph_error (strip (slice_from 4 line)) h3 with
        | Raise e => Some (Raise e)
        | Return p => Some (Return (S i, flow ++ [p]))
        end
      else if startswith_any bullet_prefixes (lstrip line) then
        match bullet_loop fuel lines i [] with
        | Some (Return (i', items)) =>
            Some (Return
                    (i', flow ++ [ListFlowable items "bullet" [bullet_sign] 6;
                                  Spacer 1 4]))
        | Some (Raise e) => Some (Raise e)
        | None => None
        end
      else
        match new_Paragraph paragraph_error line body with
        | Raise e => Some (Raise e)
        | Return p => Some (Return (S i, flow ++ [p]))
        end
  end.

(** The outer loop [while i < len(lines)]. *)
Fixpoint while_loop (fuel : nat) (lines : list str) (i : nat)
    (flow : list flowable) : option (outcome (list flowable)) :=
  match fuel with
  | O => None
  | S fuel' =>
      match nth_error lines i with
      | None => Some (Return flow)
      | Some raw =>
          match loop_body fuel lines i raw flow with
          | Some (Return (i', flow')) => while_loop fuel' lines i' flow'
          | Some (Raise e) => Some (Raise e)
          | None => None
          end
      end
  end.

(** The function from [lines = md_text.splitlines()] on.  Each loop gets
    one evaluation of its condition per line, and one more to leave it. *)
Definition flowables_of_lines (lines : list str)
    : option (outcome (list flowable)) :=
  while_loop (S (length lines)) lines 0 [].

Definition markdown_to_flowables (md_text : str)
    : option (outcome (list flowable)) :=
  flowables_of_lines (splitlines md_text).

End Markdown.

(** *** The parse seen line by line

    The vocabulary of the design document, and the grouping of lines the
    loops are compared with: a line outside a bullet run stands alone, and
    a maximal run of bullet lines is one block. *)

Section Layout.

Variable styles : StyleSheet.

Definition Heading2 (t : str) : flowable := Paragraph t (h2 styles).
Definition Heading3 (t : str) : flowable := Paragraph t (h3 styles).
Definition BulletList (texts : list str) : flowable :=
  ListFlowable
    (map (fun t => ListItem (Paragraph t (body styles)) 12) texts)
    "bullet" [bullet_sign] 6.

(** The test of the inner loop on one line. *)
Definition is_bullet_line (raw : str) : bool :=
  startswith_any bullet_prefixes (lstrip raw).

(** The test [not line.strip()] of the outer loop on one line. *)
Definition is_blank_line (raw : str) : bool :=
  match strip (rstrip raw) with [] => true | _ :: _ => false end.

Definition bullet_text (raw : str) : str :=
  strip (slice_from 1 (lstrip raw)).

(** What the outer loop appends for a line that is not a bullet line. *)
Definition plain_element (raw : str) : flowable :=
  let line := rstrip raw in
  if is_blank_line raw then Spacer 1 6
  else if startswith (lit "## ") line then
    Heading2 (strip (slice_from 3 line))
  else if startswith (lit "### ") line then
    Heading3 (strip (slice_from 4 line))
  else Paragraph line (body styles).

Inductive block : Type :=
| Single (raw : str)
| Run (raws : list str).

Definition block_lines (b : block) : list str :=
  match b with
  | Single raw => [raw]
  | Run raws => raws
  end.

Fixpoint blocks (lines : list str) : list block :=
  match lines with
  | [] => []
  | raw :: rest =>
      if is_bullet_line raw then
        match blocks rest with
        | Run raws :: bs => Run (raw :: raws) :: bs
        | bs => Run [raw] :: bs
        end
      else Single raw :: blocks rest
  end.

Definition emit (b : block) : list flowable :=
  match b with
  | Single raw => [plain_element raw]
  | Run raws => [BulletList (map bullet_text raws); Spacer 1 4]
  end.

Definition layout (lines : list str) : list flowable :=
  flat_map emit (blocks lines).

(** The bullet lines a list of lines starts with, and what follows them. *)
Fixpoint leading_bullets (lines : list str) : list str :=
  match lines with
  | [] => []
  | raw :: rest =>
      if is_bullet_line raw then raw :: leading_bullets rest else []
  end.

Fixpoint after_bullets (lines : list str) : list str :=
  match lines with
  | [] => []
  | raw :: rest => if is_bullet_line raw then after_bullets rest else lines
  end.

(** A list of lines that does not end, or does not start, with a bullet
    line: what surrounds a maximal run of bullet lines. *)
Definition ends_plain (pre : list str) : Prop :=
  forall pre' raw, pre = pre' ++ [raw] -> is_bullet_line raw = false.

Definition starts_plain (post : list str) : Prop :=
  forall raw post', post = raw :: post' -> is_bullet_line raw = false.

(** Every block holds lines of one kind: one line that is not a bullet
    line, or bullet lines only, at least one. *)
Definition block_ok (b : block) : Prop :=
  match b with
  | Single raw => is_bullet_line raw = false
  | Run raws =>
      raws <> [] /\ Forall (fun raw => is_bullet_line raw = true) raws
  end.

(** The text a line contributes to the document. *)
Definition line_text (raw : str) : str :=
  let line := rstrip raw in
  if is_bullet_line raw then bullet_text raw
  else if startswith (lit "## ") line then strip (slice_from 3 line)
  else if startswith (lit "### ") line then strip (slice_from 4 line)
  else line.



End Layout.

(** The texts a flowable was made from (the arguments of its
    [Paragraph]s), in reading order. *)
Fixpoint visible_text (f : flowable) : list str :=
  match f with
  | Paragraph t _ => [t]
  | Spacer _ _ => []
  | ListItem c _ => visible_text c
  | ListFlowable items _ _ _ => flat_map visible_text items
  end.

(** The exception raised while the flowables [flow] are made one after
    the other, if one is: that of the first paragraph refused. *)
Fixpoint rejected (paragraph_error : MarkupParser) (f : flowable)
    : option exn :=
  match f with
  | Paragraph t s => paragraph_check paragraph_error t s
  | Spacer _ _ => None
  | ListItem c _ => rejected paragraph_error c
  | ListFlowable items _ _ _ =>
      (fix first (l : list flowable) : option exn :=
         match l with
         | [] => None
         | x :: l' =>
             match rejected paragraph_error x with
             | Some e => Some e
             | None => first l'
             end
         end) items
  end.

Fixpoint first_rejected (paragraph_error : MarkupParser)
    (flow : list flowable) : option exn :=
  match flow with
  | [] => None
  | f :: flow' =>
      match rejected paragraph_error f with
      | Some e => Some e
      | None => first_rejected paragraph_error flow'
      end
  end.

(** Making the flowables [flow]: they are returned unless one is
    refused. *)
Definition built (paragraph_error : MarkupParser) (flow : list flowable)
    : outcome (list flowable) :=
  match first_rejected paragraph_error flow with
  | Some e => Raise e
  | None => Return flow
  end.

(** The string ["\n"]. *)
Definition nl : str := [10%N].

(** The input of the end-to-end scenario. *)
Definition scenario : str :=
  lit "## Trip Overview" ++ nl ++ lit "A great trip." ++ nl ++ nl
  ++ lit "### Day 1" ++ nl ++ lit "- Museum" ++ nl ++ lit "- Lunch" ++ nl.

(** ** write_pdf

    The function up to its call [doc.build(story)]: it gives the document
    template and the story it hands to the builder, with the file name it
    returns, or the exception of a [Paragraph] that is refused on the way
    (the title, or a text of the plan).  Building the file and reading it
    back are [build_and_read] in the script below. *)

(** A reading of the clock, [datetime.now()]. *)
Record datetime : Type := {
  year : N;
  month : N;
  day : N;
  hour : N;
  minute : N
}.

Definition digit (n : N) : char := (48 + n mod 10)%N.

Definition two_digits (n : N) : str := [digit (n / 10); digit n].

Definition four_digits (n : N) : str :=
  [digit (n / 1000); digit (n / 100); digit (n / 10); digit n].

(** [t.strftime('%Y-%m-%d %H:%M')], for the years from 1000 on. *)
Definition strftime (t : datetime) : str :=
  four_digits (year t) ++ lit "-" ++ two_digits (month t) ++ lit "-"
  ++ two_digits (day t) ++ lit " " ++ two_digits (hour t) ++ lit ":"
  ++ two_digits (minute t).

(** The keyword arguments of [SimpleDocTemplate]; margins in tenths of an
    inch. *)
Record SimpleDocTemplate : Type := {
  doc_filename : str;
  pagesize : string;
  leftMargin : Z;
  rightMargin : Z;
  topMargin : Z;
  bottomMargin : Z;
  title : str;
  author : str
}.

Definition header (styles : StyleSheet) : ParagraphStyle :=
  DerivedStyle "Header" (styles "Title"%string) (Some 18%Z) None (Some 12%Z).

Definition write_pdf (paragraph_error : MarkupParser)
    (markdown_text destination filename : str) (now : datetime)
    : option (outcome (SimpleDocTemplate * list flowable * str)) :=
  let doc :=
    {| doc_filename := filename;
       pagesize := "LETTER";
       leftMargin := 5; rightMargin := 5;
       topMargin := 7; bottomMargin := 7;
       title := lit "Travel Guide - " ++ destination;
       author := lit "Travel Guide Generator" |} in
  let styles := getSampleStyleSheet in
  match new_Paragraph paragraph_error (lit "Travel Guide: " ++ destination)
          (header styles) with
  | Raise e => Some (Raise e)
  | Return title_line =>
      let meta := lit "Generated: " ++ strftime now in
      match new_Paragraph paragraph_error meta (styles "Normal"%string) with
      | Raise e => Some (Raise e)
      | Return meta_line =>
          match markdown_to_flowables paragraph_error styles markdown_text
          with
          | None => None
          | Some (Raise e) => Some (Raise e)
          | Some (Return flow) =>
              Some (Return
                      (doc, [title_line; meta_line; Spacer 1 10] ++ flow,
                       filename))
          end
      end
  end.

(** ** The completion requester *)

(** [FALLBACK_MODELS], tried in order. *)
Definition FALLBACK_MODELS : list str :=
  [lit "gpt-4o"; lit "gpt-4o-mini"; lit "gpt-4-turbo"].

(** A value found under a key of a content part: a [str] or something
    else ([None] when the key is absent). *)
Inductive pyval : Type :=
| VStr (s : str)
| VOther.

(** A Python [dict] with string keys, as its items. *)
Definition pydict := list (str * pyval).

(** [d.get(key)] *)
Fixpoint dict_get (key : str) (d : pydict) : pyval :=
  match d with
  | [] => VOther
  | (k, v) :: d' =>
      if Py.eqb k key then v else dict_get key d'
  end.

(** One element of a content list, by the [isinstance] tests applied. *)
Inductive part : Type :=
| PStr (s : str)
| PDict (d : pydict)
| POther.

(** [message.content], by the [isinstance] tests applied. *)
Inductive content : Type :=
| CStr (s : str)
| CList (ps : list part)
| COther.

(** [f"{last_error}"], [last_error] being [None] or an exception. *)
Definition format_error (last_error : option exn) : str :=
  match last_error with
  | None => lit "None"
  | Some e => exn_str e
  end.

Record message : Type := { role : str; message_content : str }.

(** The keyword arguments of [client.chat.completions.create]; the
    temperature [0.7] is kept in tenths. *)
Record request : Type := {
  model : str;
  messages : list message;
  max_tokens : Z;
  temperature_tenths : Z
}.

Section Requester.

(** The value of [comp.usage]. *)
Variable Usage : Type.

(** A completion: [choices] holds [choice.message.content] of each choice;
    [usage] is [getattr(comp, "usage", None)]. *)
Record completion : Type := {
  choices : list content;
  usage : option Usage
}.

(** The fragments collected from a content list. *)
Definition part_texts (p : part) : list str :=
  match p with
  | PStr s => [s]
  | PDict d =>
      match dict_get (lit "text") d with
      | VStr s => [s]
      | VOther => []
      end
  | POther => []
  end.

(** An [IndexError] of [choices[0]] is caught and gives the empty string. *)
Definition _extract_text_from_chat_completion (comp : completion) : str :=
  match nth_error (choices comp) 0 with
  | None => []
  | Some txt =>
      match txt with
      | CStr s =>
          match strip s with
          | _ :: _ => s
          | [] => []
          end
      | CList ps =>
          let parts := flat_map part_texts ps in
          let joined := strip (join nl parts) in
          match joined with
          | _ :: _ => joined
          | [] => []
          end
      | COther => []
      end
  end.

(** The provider: answering a request changes its state [World] and
    either raises or returns a completion. *)
Variable World : Type.
Variable create : request -> World -> outcome completion * World.

(** The text of the fixed system instruction. *)
Variable SYSTEM_PROMPT : str.

(** [st.session_state], the keys written here. *)
Record session_state : Type := {
  last_model_used : option str;
  last_usage : option (option Usage)
}.

(** The state the function runs in; [issued] lists the requests sent so
    far, oldest first. *)
Record state : Type := {
  world : World;
  session : session_state;
  issued : list request
}.

Definition request_for (user_prompt model_name : str) : request :=
  {| model := model_name;
     messages :=
       [ {| role := lit "system"; message_content := SYSTEM_PROMPT |};
         {| role := lit "user"; message_content := user_prompt |} ];
     max_tokens := 2500;
     temperature_tenths := 7 |}.

Definition empty_content_error (model_name : str) : exn :=
  RuntimeError (lit "Model '" ++ model_name ++ lit "' returned empty content.").

Definition all_failed_error (last_error : option exn) : exn :=
  RuntimeError
    (lit "All model attempts failed. Last error: " ++ format_error last_error).

(** The [for model_name in ...] loop with the [raise] that follows it. *)
Fixpoint try_models (user_prompt : str) (models : list str) (st : state)
    (last_error : option exn) : outcome str * state :=
  match models with
  | [] => (Raise (all_failed_error last_error), st)
  | model_name :: rest =>
      let req := request_for user_prompt model_name in
      let (answer, w) := create req (world st) in
      let st1 := {| world := w; session := session st;
                    issued := issued st ++ [req] |} in
      match answer with
      | Raise e => try_models user_prompt rest st1 (Some e)
      | Return comp =>
          let text := _extract_text_from_chat_completion comp in
          match strip text with
          | _ :: _ =>
              (Return text,
               {| world := w;
                  session := {| last_model_used := Some model_name;
                                last_usage := Some (usage comp) |};
                  issued := issued st1 |})
          | [] =>
              try_models user_prompt rest st1
                (Some (empty_content_error model_name))
          end
      end
  end.

(** [models] is the module global [FALLBACK_MODELS] read by the function. *)
Definition get_travel_plan_markdown (models : list str) (user_prompt : str)
    (st : state) : outcome str * state :=
  try_models user_prompt models st None.

(** *** The answers of the provider, for stating properties

    [answers user_prompt models w] asks every model of [models] in order
    from the provider state [w]; it gives each model with its answer, and
    the provider state reached. *)
Fixpoint answers (user_prompt : str) (models : list str) (w : World)
    : list (str * outcome completion) * World :=
  match models with
  | [] => ([], w)
  | model_name :: rest =>
      let (answer, w1) := create (request_for user_prompt model_name) w in
      let (more, w2) := answers user_prompt rest w1 in
      ((model_name, answer) :: more, w2)
  end.

(** An answer is usable when it is a completion whose extracted text has
    a character that is not white space. *)
Definition usable (answer : outcome completion) : bool :=
  match answer with
  | Raise _ => false
  | Return comp =>
      match strip (_extract_text_from_chat_completion comp) with
      | [] => false
      | _ :: _ => true
      end
  end.

Definition unusable (attempt : str * outcome completion) : Prop :=
  usable (snd attempt) = false.

(** The error the loop records for an answer that is not usable. *)
Definition recorded_error (attempt : str * outcome completion) : exn :=
  match attempt with
  | (_, Raise e) => e
  | (model_name, Return _) => empty_content_error model_name
  end.

(** The value of [last_error] after the attempts [attempts], none of
    them usable. *)
Definition last_recorded (last_error : option exn)
    (attempts : list (str * outcome completion)) : option exn :=
  fold_left (fun _ attempt => Some (recorded_error attempt)) attempts
    last_error.

(** The extracted text as the design document words it: every fragment,
    joined with newlines and stripped. *)
Definition fragments (txt : content) : list str :=
  match txt with
  | CStr s => [s]
  | CList ps => flat_map part_texts ps
  | COther => []
  end.

Definition extracted_text_as_specified (txt : content) : str :=
  strip (join nl (fragments txt)).

End Requester.

(** A provider for concrete runs: its state counts the requests answered;
    the first request is refused, the second is answered with white space
    only, every later one with a list of parts. *)
Definition demo_completion : completion unit :=
  {| choices :=
       [CList [PStr (lit " ## Trip Overview");
               POther;
               PDict [(lit "type", VStr (lit "text"));
                      (lit "text", VStr (lit "Paris. "))];
               PDict [(lit "text", VOther)]]];
     usage := Some tt |}.

Definition demo_create (req : request) (answered : nat)
    : outcome (completion unit) * nat :=
  (match answered with
   | 0 => Raise (Exception "RateLimitError" (lit "rate limit reached"))
   | 1 => Return {| choices := [CStr (lit "  ")]; usage := None |}
   | _ => Return demo_completion
   end,
   S answered).

Definition demo_state : state unit nat :=
  {| world := 0;
     session := {| last_model_used := None; last_usage := None |};
     issued := [] |}.

(** ** The rest of the script

    The form state, the prompt, and the action run when the form is
    submitted. *)

(** [s.replace(old, new)] for a pattern [old] of one character. *)
Definition replace_char (old : char) (new : str) (s : str) : str :=
  flat_map (fun c => if N.eqb c old then new else [c]) s.

(** [x or default] on strings. *)
Definition or_default (x default : str) : str :=
  match x with
  | [] => default
  | _ :: _ => x
  end.

Definition FORM_KEYS : list string :=
  ["destination"; "num_days"; "special_interests"; "guardrails"]%string.

(** The entries of [st.session_state] that hold strings, by key. *)
Definition form_state := string -> option str.

(** [d[k] = v] *)
Definition setitem (k : string) (v : str) (d : form_state) : form_state :=
  fun k' => if String.eqb k' k then Some v else d k'.

(** [d.setdefault(k, v)] *)
Definition setdefault (k : string) (v : str) (d : form_state) : form_state :=
  match d k with
  | Some _ => d
  | None => setitem k v d
  end.

Section Prompt.

(** [textwrap.dedent], of the standard library. *)
Variable dedent : str -> str.

Definition user_prompt_template
    (destination num_days special_interests guardrails : str) : str :=
  nl
  ++ lit "TRAVEL DETAILS" ++ nl
  ++ lit "- Destination: " ++ or_default destination (lit "N/A") ++ nl
  ++ lit "- Number of Days: " ++ or_default num_days (lit "N/A") ++ nl
  ++ nl
  ++ lit "INTERESTS & PREFERENCES" ++ nl
  ++ lit "- Special Interests: "
  ++ or_default special_interests (lit "General sightseeing") ++ nl
  ++ nl
  ++ lit "CONSTRAINTS / GUARDRAILS" ++ nl
  ++ or_default guardrails (lit "None specified") ++ nl
  ++ nl
  ++ lit "INSTRUCTIONS" ++ nl
  ++ lit "- Create a complete itinerary covering all " ++ num_days
  ++ lit " days" ++ nl
  ++ lit "- For each day, suggest 3-5 activities/places to visit" ++ nl
  ++ lit "- Include specific names of attractions, restaurants, and locations"
  ++ nl
  ++ lit "- Consider travel time between locations" ++ nl
  ++ lit "- Incorporate the specified interests throughout the itinerary"
  ++ nl
  ++ lit "- Respect all guardrails and constraints mentioned" ++ nl
  ++ lit "- Provide practical details (opening hours, booking requirements, etc.)"
  ++ nl
  ++ lit "- Keep the plan realistic and not overly packed" ++ nl
  ++ lit "- Total length: approximately 800-1500 words" ++ nl.

Definition build_user_prompt
    (destination num_days special_interests guardrails : str) : str :=
  strip (dedent
           (user_prompt_template destination num_days special_interests
              guardrails)).

End Prompt.

(** What the script puts on the page. *)
Inductive widget : Type :=
| st_warning (body : str)
| st_info (body : str)
| st_success (body : str)
| st_error (body : str)
| st_caption (body : str)
| st_subheader (body : str)
| st_markdown (body : str) (unsafe_allow_html : bool)
| st_spinner (text : str)
| st_text_area (label value : str) (height : Z)
| st_expander (label : str) (inside : list widget)
| st_download_button (label : str) (data : list Byte.byte)
    (file_name mime : str).

Section App.

Variable Usage : Type.
Variable World : Type.
Variable create : request -> World -> outcome (completion Usage) * World.
Variable SYSTEM_PROMPT : str.
Variable dedent : str -> str.

(** [str(usage)] and the truth value of a usage object. *)
Variable usage_str : Usage -> str.
Variable usage_bool : Usage -> bool.

(** The [KeyError] raised by [st.session_state[k]] for a key not set. *)
Variable key_error : string -> exn.

(** [doc.build(story)] followed by reading the file back: the bytes of
    the document, or the exception raised on the way. *)
Variable build_and_read :
  SimpleDocTemplate -> list flowable -> outcome (list Byte.byte).

(** The clock reading used by [write_pdf]. *)
Variable now : datetime.

(** The verdict of ReportLab on the texts of the document. *)
Variable paragraph_error : MarkupParser.

(** The session state, the provider with the requests sent, and the
    page built so far. *)
Record app_state : Type := {
  form : form_state;
  run : state Usage World;
  page : list widget
}.

Definition init_form_state (a : app_state) : app_state :=
  {| form := setdefault "travel_plan" []
               (fold_left (fun d k => setdefault k [] d) FORM_KEYS (form a));
     run := run a;
     page := page a |}.

Definition reset_all_callback (a : app_state) : app_state :=
  {| form := setitem "travel_plan" []
               (fold_left (fun d k => setitem k [] d) FORM_KEYS (form a));
     run := {| world := world (run a);
               session := {| last_model_used := None; last_usage := None |};
               issued := issued (run a) |};
     page := page a |}.

(** A computation of the script: it may run out of steps ([None]), and
    otherwise returns or raises, in both cases with the state reached. *)
Definition script (A : Type) : Type :=
  app_state -> option (outcome A * app_state).

Definition ret {A : Type} (x : A) : script A :=
  fun a => Some (Return x, a).

Definition throw {A : Type} (e : exn) : script A :=
  fun a => Some (Raise e, a).

Definition bind {A B : Type} (m : script A) (k : A -> script B) : script B :=
  fun a =>
    match m a with
    | None => None
    | Some (Return x, a') => k x a'
    | Some (Raise e, a') => Some (Raise e, a')
    end.

(** [try: m except Exception as e: handler(e)] *)
Definition try_except {A : Type} (m : script A) (handler : exn -> script A)
    : script A :=
  fun a =>
    match m a with
    | None => None
    | Some (Return x, a') => Some (Return x, a')
    | Some (Raise e, a') => handler e a'
    end.

Notation "x <- m ;; k" := (bind m (fun x => k))
  (at level 61, m at next level, right associativity).
Notation "m ;;; k" := (bind m (fun _ => k))
  (at level 61, right associativity).

(** A call of a widget function. *)
Definition show (w : widget) : script unit :=
  fun a => Some (Return tt,
                 {| form := form a; run := run a; page := page a ++ [w] |}).

(** [st.session_state[k]] *)
Definition getitem (k : string) : script str :=
  fun a =>
    match form a k with
    | Some v => Some (Return v, a)
    | None => Some (Raise (key_error k), a)
    end.

(** [st.session_state[k] = v] *)
Definition assign (k : string) (v : str) : script unit :=
  fun a => Some (Return tt,
                 {| form := setitem k v (form a); run := run a;
                    page := page a |}).

(** The session entries written by [get_travel_plan_markdown]. *)
Definition session_now : script (session_state Usage) :=
  fun a => Some (Return (session (run a)), a).

(** [get_travel_plan_markdown(user_prompt)], run on the provider. *)
Definition call_get_travel_plan_markdown (user_prompt : str) : script str :=
  fun a =>
    let (result, r) :=
      get_travel_plan_markdown create SYSTEM_PROMPT FALLBACK_MODELS
        user_prompt (run a) in
    Some (result, {| form := form a; run := r; page := page a |}).

(** The name offered for the download. *)
Definition download_name (destination : str) : str :=
  lit "travel_guide_"
  ++ replace_char 44%N [] (replace_char 32%N (lit "_") destination)
  ++ lit ".pdf".

(** The [try] block that exports the plan. *)
Definition export_pdf (plan destination : str) : script unit :=
  fun a =>
    match write_pdf paragraph_error plan destination
            (lit "travel_plan.pdf") now with
    | None => None
    | Some (Raise e) => Some (Raise e, a)
    | Some (Return (doc, story, pdf_path)) =>
        match build_and_read doc story with
        | Raise e => Some (Raise e, a)
        | Return data =>
            show (st_download_button
                    ([11015%N; 65039%N] ++ lit " Download Travel Plan PDF")
                    data (download_name destination)
                    (lit "application/pdf")) a
        end
    end.

(** The branch [if st.session_state["travel_plan"].strip()] and its
    [else]. *)
Definition show_plan : script unit :=
  plan <- getitem "travel_plan" ;;
  match strip plan with
  | _ :: _ =>
      show (st_success (9989%N :: lit " Travel plan generated!")) ;;;
      s <- session_now ;;
      show (st_caption
              (lit "Model: "
                 ++ match last_model_used s with
                    | Some m => m
                    | None => lit "unknown"
                    end)) ;;;
      match last_usage s with
      | Some (Some u) =>
          if usage_bool u
          then show (st_caption (lit "Usage: " ++ usage_str u))
          else ret tt
      | _ => ret tt
      end ;;;
      destination <- getitem "destination" ;;
      show (st_subheader (lit "Your Travel Plan for " ++ destination)) ;;;
      plan1 <- getitem "travel_plan" ;;
      show (st_markdown plan1 false) ;;;
      plan2 <- getitem "travel_plan" ;;
      show (st_expander (lit "Show raw text (copy-friendly)")
              [st_text_area (lit "Plan (raw)") plan2 400]) ;;;
      try_except
        (plan3 <- getitem "travel_plan" ;;
         destination1 <- getitem "destination" ;;
         export_pdf plan3 destination1)
        (fun e =>
           show (st_error (lit "PDF generation error: " ++ exn_str e)) ;;;
           show (st_info
                   (lit "You can still copy the plan above while we sort out PDF export.")))
  | [] =>
      show (st_warning (lit "The model returned an empty response.")) ;;;
      show (st_info
              (lit "Try again, or verify your API key/model access in Diagnostics above."))
  end.

(** The block [if submitted: ... else: ...] at the end of the script. *)
Definition main_action (submitted : bool) : script unit :=
  if submitted then
    destination <- getitem "destination" ;;
    filled <- match destination with
              | [] => ret false
              | _ :: _ =>
                  num_days <- getitem "num_days" ;;
                  ret (match num_days with [] => false | _ :: _ => true end)
              end ;;
    if negb filled then
      show (st_warning
              (lit "Please provide at least **Destination** and **Number of Days**."))
    else
      show (st_spinner (lit "Creating your personalized travel plan...")) ;;;
      destination1 <- getitem "destination" ;;
      num_days <- getitem "num_days" ;;
      special_interests <- getitem "special_interests" ;;
      guardrails <- getitem "guardrails" ;;
      text <- call_get_travel_plan_markdown
                (build_user_prompt dedent destination1 num_days
                   special_interests guardrails) ;;
      assign "travel_plan" text ;;;
      show_plan
  else
    fun a =>
      match form a "travel_plan"%string with
      | Some plan =>
          match strip plan with
          | _ :: _ =>
              (show (st_subheader (lit "Last Generated Travel Plan")) ;;;
               show (st_markdown plan false)) a
          | [] =>
              show (st_info
                      (lit "Fill in the fields above and click **Generate Travel Plan**.")) a
          end
      | None =>
          show (st_info
                  (lit "Fill in the fields above and click **Generate Travel Plan**.")) a
      end.

End App.

(** ** Notions for further properties of the parser *)

(** [raw'] is [raw] with white space added at its end. *)
Definition padded (raw raw' : str) : Prop :=
  exists ws, forallb isspace ws = true /\ raw' = raw ++ ws.

(** [raw'] is [raw], or a bullet line [raw] with white space added at its
    start. *)
Definition indented (raw raw' : str) : Prop :=
  raw' = raw \/
  (is_bullet_line raw = true /\
   exists ws, forallb isspace ws = true /\ raw' = ws ++ raw).

(** The forms an element of the parse takes. *)
Definition element_ok (styles : StyleSheet) (f : flowable) : Prop :=
  f = Spacer 1 6 \/ f = Spacer 1 4 \/
  (exists t, (f = Heading2 styles t \/ f = Heading3 styles t) /\
             t <> [] /\ strip t = t) \/
  (exists t, f = Paragraph t (body styles) /\ t <> [] /\ rstrip t = t) \/
  (exists texts, f = BulletList styles texts /\ texts <> [] /\
                 Forall (fun t => strip t = t) texts).

Definition is_list (f : flowable) : bool :=
  match f with
  | ListFlowable _ _ _ _ => true
  | _ => false
  end.

Definition is_list_spacer (f : flowable) : bool :=
  match f with
  | Spacer 1 4 => true
  | _ => false
  end.

(** Every list is followed by its spacer, and what follows the spacer is
    not a list. *)
Fixpoint lists_spaced (flow : list flowable) : bool :=
  match flow with
  | [] => true
  | f :: rest =>
      if is_list f then
        match rest with
        | g :: rest' =>
            is_list_spacer g
            && match rest' with
               | [] => true
               | h :: _ => negb (is_list h)
               end
            && lists_spaced rest'
        | [] => false
        end
      else lists_spaced rest
  end.

(** A string without line boundary. *)
Definition one_line (s : str) : Prop :=
  Forall (fun c => is_linebreak c = false) s.

(** The lines, each ended by a newline. *)
Definition unlines (lines : list str) : str :=
  concat (map (fun l => l ++ nl) lines).

(** ** Notions for further properties of the script *)

(** The keys given a value by [init_form_state] and [reset_all_callback]. *)
Definition managed_keys : list string := FORM_KEYS ++ ["travel_plan"%string].

Definition is_managed (k : string) : bool :=
  existsb (String.eqb k) managed_keys.

(** The caption that shows the usage, when there is one. *)
Definition usage_caption {Usage : Type} (usage_str : Usage -> str)
    (usage_bool : Usage -> bool) (u : option (option Usage)) : list widget :=
  match u with
  | Some (Some u) =>
      if usage_bool u then [st_caption (lit "Usage: " ++ usage_str u)]
      else []
  | _ => []
  end.

(** What the page shows of a plan, up to the export. *)
Definition plan_widgets (model_name : str) (usage_part : list widget)
    (destination plan : str) : list widget :=
  [ st_spinner (lit "Creating your personalized travel plan...");
    st_success (9989%N :: lit " Travel plan generated!");
    st_caption (lit "Model: " ++ model_name) ]
  ++ usage_part
  ++ [ st_subheader (lit "Your Travel Plan for " ++ destination);
       st_markdown plan false;
       st_expander (lit "Show raw text (copy-friendly)")
         [st_text_area (lit "Plan (raw)") plan 400] ].

Definition fill_in_prompt : widget :=
  st_info (lit "Fill in the fields above and click **Generate Travel Plan**.").

Definition incomplete_warning : widget :=
  st_warning
    (lit "Please provide at least **Destination** and **Number of Days**.").

(** ** A form, providers and builders for concrete runs *)

(** [p in s] *)
Fixpoint contains (p s : str) : bool :=
  startswith p s
  || match s with
     | [] => false
     | _ :: s' => contains p s'
     end.

(** A stand-in for the verdict of ReportLab: like ReportLab, it refuses
    a text with a bold tag that is never closed; it accepts the others. *)
Definition unclosed_bold_error : MarkupParser :=
  fun text _ =>
    if contains (lit "<b>") text && negb (contains (lit "</b>") text)
    then Some (Exception "ValueError"
                 (lit "Parse error: saw </para> instead of expected </b>"))
    else None.

Definition demo_now : datetime :=
  {| year := 2025; month := 1; day := 31; hour := 9; minute := 5 |}.

Definition demo_form : form_state :=
  fun k =>
    if String.eqb k "destination" then Some (lit "Paris, France")
    else if String.eqb k "num_days" then Some (lit "3")
    else if String.eqb k "special_interests" then Some (lit "Museums")
    else if String.eqb k "guardrails" then Some []
    else if String.eqb k "travel_plan" then Some (lit "An older plan")
    else None.

Definition demo_app : app_state unit nat :=
  {| form := demo_form; run := demo_state; page := [] |}.

(** A provider that refuses every request. *)
Definition demo_refusing_create (req : request) (answered : nat)
    : outcome (completion unit) * nat :=
  (Raise (Exception "APIConnectionError" (lit "connection error")),
   S answered).

Definition demo_key_error (k : string) : exn :=
  Exception "KeyError" (lit k).

Definition demo_build (doc : SimpleDocTemplate) (story : list flowable)
    : outcome (list Byte.byte) :=
  Return [Byte.x25; Byte.x50; Byte.x44; Byte.x46].

Definition demo_failing_build (doc : SimpleDocTemplate)
    (story : list flowable) : outcome (list Byte.byte) :=
  Raise (Exception "OSError" (lit "No space left on device")).

(** * Properties *)

Unset Implicit Arguments.

(** ** Stripping *)

Module StripFacts.

Lemma rstrip_cons (c : char) (s : str) :
  rstrip (c :: s) =
  match rstrip s with
  | [] => if isspace c then [] else [c]
  | _ :: _ => c :: rstrip s
  end.
Proof. simpl. destruct (rstrip s); reflexivity. Qed.

Lemma rstrip_keep (c : char) (s : str) :
  isspace c = false -> rstrip (c :: s) = c :: rstrip s.
Proof.
  intros Hc. rewrite rstrip_cons, Hc. destruct (rstrip s); reflexivity.
Qed.

Lemma lstrip_keep (c : char) (s : str) :
  isspace c = false -> lstrip (c :: s) = c :: s.
Proof. intros Hc. simpl. rewrite Hc. reflexivity. Qed.

Lemma lstrip_rstrip (s : str) : lstrip (rstrip s) = rstrip (lstrip s).
Proof.
  induction s as [|c s IH]; [reflexivity|].
  destruct (isspace c) eqn:Hc.
  - rewrite rstrip_cons, Hc. simpl lstrip at 2. rewrite Hc, <- IH.
    destruct (rstrip s) eqn:Hr; [reflexivity|].
    simpl. rewrite Hc. reflexivity.
  - rewrite lstrip_keep, rstrip_keep by assumption.
    apply lstrip_keep. assumption.
Qed.

Lemma rstrip_idem (s : str) : rstrip (rstrip s) = rstrip s.
Proof.
  induction s as [|c s IH]; [reflexivity|].
  rewrite rstrip_cons. destruct (rstrip s) as [|d r] eqn:Hr.
  - destruct (isspace c) eqn:Hc; [reflexivity|].
    simpl. rewrite Hc. reflexivity.
  - rewrite rstrip_cons, IH. reflexivity.
Qed.

Lemma lstrip_idem (s : str) : lstrip (lstrip s) = lstrip s.
Proof.
  induction s as [|c s IH]; [reflexivity|].
  destruct (isspace c) eqn:Hc.
  - simpl. rewrite Hc. exact IH.
  - rewrite lstrip_keep by assumption. apply lstrip_keep. assumption.
Qed.

Lemma strip_rstrip (s : str) : strip (rstrip s) = strip s.
Proof. unfold strip. rewrite rstrip_idem. reflexivity. Qed.

Lemma strip_idem (s : str) : strip (strip s) = strip s.
Proof.
  unfold strip. rewrite (lstrip_rstrip s), rstrip_idem.
  rewrite <- lstrip_rstrip. apply lstrip_idem.
Qed.

(** A string is its leading white space followed by its left strip. *)
Lemma lstrip_split (s : str) :
  exists ws, s = ws ++ lstrip s /\ forallb isspace ws = true.
Proof.
  induction s as [|c s [ws [E W]]].
  - exists []. split; reflexivity.
  - destruct (isspace c) eqn:Hc.
    + exists (c :: ws). simpl. rewrite Hc. split; [congruence|assumption].
    + exists []. rewrite lstrip_keep by assumption. split; reflexivity.
Qed.

Lemma rstrip_app_keep (a b : str) :
  rstrip b <> [] -> rstrip (a ++ b) = a ++ rstrip b.
Proof.
  intros Hb. induction a as [|c a IH]; [reflexivity|].
  simpl app. rewrite rstrip_cons, IH.
  destruct (a ++ rstrip b) eqn:E; [|reflexivity].
  apply app_eq_nil in E. tauto.
Qed.

Lemma rstrip_app_blank (a b : str) :
  rstrip b = [] -> rstrip (a ++ b) = rstrip a.
Proof.
  intros Hb. induction a as [|c a IH]; [assumption|].
  simpl app. rewrite (rstrip_cons c (a ++ b)), (rstrip_cons c a), IH.
  reflexivity.
Qed.

(** What follows a prefix of a right-stripped string is right-stripped. *)
Lemma rstrip_suffix (a b : str) :
  rstrip (a ++ b) = a ++ b -> rstrip b = b.
Proof.
  induction a as [|c a IH]; [trivial|].
  simpl app. rewrite rstrip_cons.
  destruct (rstrip (a ++ b)) as [|d r] eqn:E.
  - destruct (isspace c); intros H; [discriminate|].
    injection H as H. symmetry in H. apply app_eq_nil in H.
    destruct H as [_ ->]. reflexivity.
  - intros H. injection H as H. apply IH. exact H.
Qed.

Lemma startswith_app (p s : str) :
  startswith p s = true -> s = p ++ skipn (length p) s.
Proof.
  revert s. induction p as [|a p IH]; intros s H; [reflexivity|].
  destruct s as [|b s]; [discriminate|].
  simpl in H. apply andb_true_iff in H. destruct H as [Hab Hp].
  apply N.eqb_eq in Hab. subst b. simpl. f_equal. apply IH. exact Hp.
Qed.

Lemma startswith_prefix (p s : str) : startswith p (p ++ s) = true.
Proof.
  induction p as [|a p IH]; [reflexivity|].
  simpl. rewrite N.eqb_refl. exact IH.
Qed.

End StripFacts.
(** ** How a line is classified *)

Module LineFacts.
Import StripFacts.

Lemma lstrip_head (s : str) (c : char) (r : str) :
  lstrip s = c :: r -> isspace c = false.
Proof.
  induction s as [|d s IH]; [discriminate|].
  simpl. destruct (isspace d) eqn:Hd; [exact IH|].
  intros H. injection H as <- _. exact Hd.
Qed.

Lemma bullet_test_cons (c : char) (r : str) :
  startswith_any bullet_prefixes (c :: r) =
  (N.eqb 45 c || N.eqb 42 c || N.eqb 8226 c).
Proof.
  unfold startswith_any, bullet_prefixes, bullet_sign.
  change (lit "-") with [45%N]. change (lit "*") with [42%N].
  cbn [existsb startswith].
  rewrite !andb_true_r, orb_false_r, orb_assoc. reflexivity.
Qed.

(** A bullet prefix is one character that is neither white space nor the
    number sign. *)
Lemma bullet_head (s : str) :
  startswith_any bullet_prefixes s = true ->
  exists c r, s = c :: r /\ isspace c = false /\ c <> 35%N.
Proof.
  destruct s as [|c r]; [discriminate|].
  rewrite bullet_test_cons. intros H. exists c, r.
  apply orb_true_iff in H. destruct H as [H|H].
  - apply orb_true_iff in H. destruct H as [H|H];
      apply N.eqb_eq in H; subst c; repeat split; discriminate.
  - apply N.eqb_eq in H. subst c. repeat split; discriminate.
Qed.


Lemma bullet_head_only (c : char) (r r' : str) :
  startswith_any bullet_prefixes (c :: r) =
  startswith_any bullet_prefixes (c :: r').
Proof. rewrite !bullet_test_cons. reflexivity. Qed.

(** The outer loop tests the right-stripped line, the inner loop the line
    as it is: both tests agree. *)
Lemma bullet_test_rstrip (raw : str) :
  startswith_any bullet_prefixes (lstrip (rstrip raw)) = is_bullet_line raw.
Proof.
  unfold is_bullet_line. rewrite lstrip_rstrip.
  destruct (lstrip raw) as [|c r] eqn:E; [reflexivity|].
  rewrite (rstrip_keep c r (lstrip_head raw c r E)). apply bullet_head_only.
Qed.

Lemma bullet_not_blank (raw : str) :
  is_bullet_line raw = true -> is_blank_line raw = false.
Proof.
  unfold is_bullet_line, is_blank_line. intros H.
  rewrite strip_rstrip. unfold strip. rewrite lstrip_rstrip.
  destruct (bullet_head _ H) as (c & r & E & Hc & _).
  rewrite E, (rstrip_keep c r Hc). reflexivity.
Qed.

Lemma number_sign_not_bullet (p s : str) :
  startswith (35%N :: p) s = true ->
  startswith_any bullet_prefixes (lstrip s) = false.
Proof.
  destruct s as [|c s]; [discriminate|]. cbn [startswith].
  intros H. apply andb_true_iff in H. destruct H as [H _].
  apply N.eqb_eq in H. subst c. reflexivity.
Qed.

Lemma heading_not_bullet (p raw : str) :
  startswith (35%N :: p) (rstrip raw) = true -> is_bullet_line raw = false.
Proof.
  intros H. rewrite <- bullet_test_rstrip.
  exact (number_sign_not_bullet _ _ H).
Qed.

Lemma blank_not_bullet (raw : str) :
  is_blank_line raw = true -> is_bullet_line raw = false.
Proof.
  intros H. destruct (is_bullet_line raw) eqn:B; [|reflexivity].
  rewrite (bullet_not_blank _ B) in H. discriminate.
Qed.

End LineFacts.
(** ** White space and line boundaries *)

Module SpaceFacts.
Import StripFacts LineFacts.

Lemma rstrip_blank (ws : str) : forallb isspace ws = true -> rstrip ws = [].
Proof.
  induction ws as [|c ws IH]; [reflexivity|].
  cbn [forallb]. intros H. apply andb_true_iff in H. destruct H as [Hc Hws].
  rewrite rstrip_cons, (IH Hws), Hc. reflexivity.
Qed.

Lemma lstrip_blank (ws s : str) :
  forallb isspace ws = true -> lstrip (ws ++ s) = lstrip s.
Proof.
  induction ws as [|c ws IH]; [reflexivity|].
  cbn [forallb]. intros H. apply andb_true_iff in H. destruct H as [Hc Hws].
  cbn [app lstrip]. rewrite Hc. exact (IH Hws).
Qed.

Lemma lstrip_nil_blank (s : str) : lstrip s = [] -> forallb isspace s = true.
Proof.
  induction s as [|c s IH]; [reflexivity|].
  cbn [lstrip forallb]. destruct (isspace c); [exact IH|discriminate].
Qed.

Lemma rstrip_pad (raw ws : str) :
  forallb isspace ws = true -> rstrip (raw ++ ws) = rstrip raw.
Proof. intros H. apply rstrip_app_blank, rstrip_blank, H. Qed.

Lemma lstrip_app (s x : str) :
  lstrip s <> [] -> lstrip (s ++ x) = lstrip s ++ x.
Proof.
  induction s as [|c s IH]; [cbn; congruence|].
  cbn [app lstrip]. destruct (isspace c); [exact IH|reflexivity].
Qed.

(** A right-stripped string that is not empty is not blank. *)
Lemma rstripped_not_blank (u : str) :
  rstrip u = u -> u <> [] -> strip u <> [].
Proof.
  intros Hr Hu Hs. unfold strip in Hs. rewrite Hr in Hs.
  apply lstrip_nil_blank, rstrip_blank in Hs. congruence.
Qed.

Lemma Forall_lstrip (P : char -> Prop) (s : str) :
  Forall P s -> Forall P (lstrip s).
Proof.
  induction 1 as [|c s Hc Hs IH]; [constructor|].
  cbn [lstrip]. destruct (isspace c); [exact IH|constructor; assumption].
Qed.

Lemma Forall_rstrip (P : char -> Prop) (s : str) :
  Forall P s -> Forall P (rstrip s).
Proof.
  induction 1 as [|c s Hc Hs IH]; [constructor|].
  rewrite rstrip_cons. destruct (rstrip s).
  - destruct (isspace c); repeat constructor; assumption.
  - constructor; assumption.
Qed.

Lemma Forall_strip (P : char -> Prop) (s : str) :
  Forall P s -> Forall P (strip s).
Proof. intros H. apply Forall_lstrip, Forall_rstrip, H. Qed.

Lemma Forall_skipn (P : char -> Prop) (n : nat) (s : str) :
  Forall P s -> Forall P (skipn n s).
Proof.
  intros H. rewrite <- (firstn_skipn n s) in H.
  apply Forall_app in H. tauto.
Qed.

(** [splitlines] gives lines without line boundary. *)
Lemma splitlines_from_one_line_aux (s : str) :
  (forall cur, one_line cur -> Forall one_line (splitlines_from cur s)) /\
  (forall c cur, one_line cur ->
                 Forall one_line (splitlines_from cur (c :: s))).
Proof.
  induction s as [|d s [IH1 IH2]].
  - assert (H0 : forall cur, one_line cur ->
                             Forall one_line (splitlines_from cur [])).
    { intros cur Hcur. cbn [splitlines_from]. destruct cur; [constructor|].
      repeat constructor. apply Forall_rev. exact Hcur. }
    split; [exact H0|]. intros c cur Hcur. cbn [splitlines_from].
    destruct (is_linebreak c) eqn:Hc.
    + constructor; [apply Forall_rev; exact Hcur|constructor].
    + repeat constructor. apply Forall_rev. constructor; assumption.
  - split; [intros cur; apply IH2|].
    intros c cur Hcur. cbn [splitlines_from].
    destruct (is_linebreak c) eqn:Hc.
    + constructor; [apply Forall_rev; exact Hcur|].
      destruct (N.eqb c 13 && N.eqb d 10).
      * apply IH1. constructor.
      * apply (IH2 d []). constructor.
    + apply (IH2 d (c :: cur)). constructor; assumption.
Qed.

Lemma splitlines_one_line (s : str) : Forall one_line (splitlines s).
Proof.
  apply (proj1 (splitlines_from_one_line_aux s)). constructor.
Qed.

(** A line followed by a newline is split off as it is. *)
Lemma splitlines_from_line (l rest : str) :
  one_line l ->
  forall cur,
    splitlines_from cur (l ++ nl ++ rest) = (rev cur ++ l) :: splitlines rest.
Proof.
  induction 1 as [|c l Hc Hl IH]; intros cur.
  - rewrite app_nil_r. cbn [app nl splitlines_from].
    replace (is_linebreak 10%N) with true by reflexivity.
    destruct rest; reflexivity.
  - cbn [app splitlines_from]. rewrite Hc, IH. cbn [rev].
    rewrite <- app_assoc. reflexivity.
Qed.

Lemma splitlines_unlines (lines : list str) :
  Forall one_line lines -> splitlines (unlines lines) = lines.
Proof.
  induction 1 as [|l lines Hl _ IH]; [reflexivity|].
  unfold unlines. cbn [map concat]. rewrite <- app_assoc.
  unfold splitlines at 1. rewrite (splitlines_from_line _ _ Hl).
  cbn [rev app]. f_equal. exact IH.
Qed.

(** An ending [e] that closes the line being read, and nothing more,
    does not change the lines of a text whose last character is not a
    line boundary. *)
Lemma splitlines_from_ending_aux (e : str) (c : char) (s : str) :
  (forall x cur, splitlines_from (x :: cur) e = [rev (x :: cur)]) ->
  is_linebreak c = false ->
  (forall cur, splitlines_from cur (s ++ c :: e)
               = splitlines_from cur (s ++ [c])) /\
  (forall d cur, splitlines_from cur (d :: s ++ c :: e)
                 = splitlines_from cur (d :: s ++ [c])).
Proof.
  intros He Hc.
  assert (H0 : forall cur, splitlines_from cur (c :: e)
                           = splitlines_from cur [c]).
  { intros cur. cbn [splitlines_from]. rewrite Hc. apply He. }
  induction s as [|d' s [IH1 IH2]].
  - split; [exact H0|]. intros d cur. cbn [app splitlines_from].
    destruct (is_linebreak d).
    + f_equal. rewrite Hc.
      replace (N.eqb c 10%N) with false; [|symmetry; apply N.eqb_neq;
        intros ->; discriminate].
      rewrite andb_false_r. rewrite He. reflexivity.
    + rewrite Hc. apply He.
  - split; [intros cur; apply IH2|].
    intros d cur. cbn [app splitlines_from].
    destruct (is_linebreak d).
    + f_equal. destruct (N.eqb d 13%N && N.eqb d' 10%N).
      * apply IH1.
      * apply (IH2 d' []).
    + apply (IH2 d' (d :: cur)).
Qed.

Lemma splitlines_ending (e : str) (c : char) (s : str) :
  (forall x cur, splitlines_from (x :: cur) e = [rev (x :: cur)]) ->
  is_linebreak c = false ->
  splitlines ((s ++ [c]) ++ e) = splitlines (s ++ [c]).
Proof.
  intros He Hc. rewrite <- app_assoc. cbn [app].
  apply (proj1 (splitlines_from_ending_aux e c s He Hc)).
Qed.

End SpaceFacts.
(** ** The loops of [markdown_to_flowables] *)

Section LoopFacts.
Import StripFacts LineFacts.

Variable paragraph_error : MarkupParser.
Variable styles : StyleSheet.

Lemma skipn_at (lines : list str) (i : nat) (raw : str) :
  nth_error lines i = Some raw -> skipn i lines = raw :: skipn (S i) lines.
Proof.
  revert i. induction lines as [|l lines IH]; intros [|i] H;
    try discriminate.
  - injection H as ->. reflexivity.
  - simpl in H. apply IH in H. exact H.
Qed.

Lemma skipn_past (lines : list str) (i : nat) :
  nth_error lines i = None -> skipn i lines = [].
Proof.
  intros H. apply nth_error_None in H. apply skipn_all2. exact H.
Qed.

Lemma leading_after (lines : list str) :
  lines = leading_bullets lines ++ after_bullets lines.
Proof.
  induction lines as [|raw rest IH]; [reflexivity|].
  simpl. destruct (is_bullet_line raw); [|reflexivity].
  simpl. f_equal. exact IH.
Qed.

Lemma skipn_leading (lines : list str) :
  skipn (length (leading_bullets lines)) lines = after_bullets lines.
Proof.
  induction lines as [|raw rest IH]; [reflexivity|].
  simpl. destruct (is_bullet_line raw); [exact IH|reflexivity].
Qed.

Lemma first_rejected_app (a b : list flowable) :
  first_rejected paragraph_error (a ++ b) =
  match first_rejected paragraph_error a with
  | Some e => Some e
  | None => first_rejected paragraph_error b
  end.
Proof.
  induction a as [|f a IH]; [reflexivity|].
  cbn [app first_rejected].
  destruct (rejected paragraph_error f); [reflexivity|exact IH].
Qed.

Lemma rejected_list (items : list flowable) (bulletType : string)
    (start : str) (leftIndent : Z) :
  rejected paragraph_error (ListFlowable items bulletType start leftIndent) =
  first_rejected paragraph_error items.
Proof.
  induction items as [|f items IH]; [reflexivity|].
  cbn [first_rejected]. rewrite <- IH. reflexivity.
Qed.

Lemma new_Paragraph_outcome (text : str) (style : ParagraphStyle) :
  new_Paragraph paragraph_error text style =
  match rejected paragraph_error (Paragraph text style) with
  | Some e => Raise e
  | None => Return (Paragraph text style)
  end.
Proof. reflexivity. Qed.

(** The items the inner loop makes for a run of bullet lines. *)
Lemma first_rejected_items (texts : list str) :
  first_rejected paragraph_error
    (map (fun t => ListItem (Paragraph t (body styles)) 12) texts) =
  first_rejected paragraph_error
    (map (fun t => Paragraph t (body styles)) texts).
Proof.
  induction texts as [|t texts IH]; [reflexivity|].
  cbn [map first_rejected rejected]. rewrite IH. reflexivity.
Qed.

(** The inner loop stops after the bullet lines found from [i] on, having
    appended one item for each, unless the text of one is refused. *)
Lemma bullet_loop_run (fuel : nat) :
  forall (lines : list str) (i : nat) (items : list flowable),
    length lines - i < fuel ->
    let run := leading_bullets (skipn i lines) in
    let made := map (fun t => ListItem (Paragraph t (body styles)) 12)
                  (map bullet_text run) in
    bullet_loop paragraph_error styles fuel lines i items =
    Some (match first_rejected paragraph_error made with
          | Some e => Raise e
          | None => Return (i + length run, items ++ made)
          end).
Proof.
  induction fuel as [|fuel IH]; intros lines i items Hf; [lia|].
  cbn [bullet_loop]. destruct (nth_error lines i) as [raw|] eqn:E.
  - assert (Hi : i < length lines)
      by (apply nth_error_Some; congruence).
    rewrite (skipn_at _ _ _ E). cbn [leading_bullets].
    fold (is_bullet_line raw). destruct (is_bullet_line raw).
    + cbn [length map first_rejected rejected]. fold (bullet_text raw).
      unfold new_Paragraph.
      destruct (paragraph_check paragraph_error (bullet_text raw)
                  (body styles)); [reflexivity|].
      rewrite IH by lia. cbv zeta.
      destruct (first_rejected paragraph_error
                  (map (fun t => ListItem (Paragraph t (body styles)) 12)
                     (map bullet_text
                        (leading_bullets (skipn (S i) lines)))));
        [reflexivity|].
      rewrite <- app_assoc. cbn [app]. do 3 f_equal. lia.
    + cbn [length map first_rejected]. rewrite app_nil_r.
      do 3 f_equal. lia.
  - rewrite (skipn_past _ _ E). cbn [leading_bullets length map first_rejected].
    rewrite app_nil_r. do 3 f_equal. lia.
Qed.

(** A bullet line opens the block made of the bullet lines that follow. *)
Lemma blocks_bullet (raw : str) (rest : list str) :
  is_bullet_line raw = true ->
  blocks (raw :: rest) =
  Run (raw :: leading_bullets rest) :: blocks (after_bullets rest).
Proof.
  revert raw. induction rest as [|r rest IH]; intros raw B.
  - cbn [blocks]. rewrite B. reflexivity.
  - cbn [blocks leading_bullets after_bullets]. rewrite B.
    destruct (is_bullet_line r) eqn:Br.
    + specialize (IH r Br). cbn [blocks] in IH. rewrite Br in IH.
      rewrite IH. reflexivity.
    + cbn [blocks]. rewrite Br. reflexivity.
Qed.

Lemma layout_plain (raw : str) (rest : list str) :
  is_bullet_line raw = false ->
  layout styles (raw :: rest) = plain_element styles raw :: layout styles rest.
Proof. intros B. unfold layout. cbn [blocks]. rewrite B. reflexivity. Qed.

Lemma layout_bullet (raw : str) (rest : list str) :
  is_bullet_line raw = true ->
  layout styles (raw :: rest) =
  BulletList styles (map bullet_text (raw :: leading_bullets rest))
    :: Spacer 1 4 :: layout styles (after_bullets rest).
Proof.
  intros B. unfold layout. rewrite (blocks_bullet _ _ B). reflexivity.
Qed.

(** What one pass through the outer loop body does, by the kind of line. *)
Lemma loop_body_plain (fuel : nat) (lines : list str) (i : nat) (raw : str)
    (flow : list flowable) :
  is_bullet_line raw = false ->
  loop_body paragraph_error styles fuel lines i raw flow =
  Some (match rejected paragraph_error (plain_element styles raw) with
        | Some e => Raise e
        | None => Return (S i, flow ++ [plain_element styles raw])
        end).
Proof.
  intros B. unfold loop_body, plain_element, is_blank_line.
  destruct (strip (rstrip raw)); [reflexivity|].
  destruct (startswith (lit "## ") (rstrip raw)).
  { unfold new_Paragraph, Heading2. cbn [rejected].
    destruct (paragraph_check paragraph_error
                (strip (slice_from 3 (rstrip raw))) (h2 styles));
      reflexivity. }
  destruct (startswith (lit "### ") (rstrip raw)).
  { unfold new_Paragraph, Heading3. cbn [rejected].
    destruct (paragraph_check paragraph_error
                (strip (slice_from 4 (rstrip raw))) (h3 styles));
      reflexivity. }
  rewrite bullet_test_rstrip, B. unfold new_Paragraph. cbn [rejected].
  destruct (paragraph_check paragraph_error (rstrip raw) (body styles));
    reflexivity.
Qed.

Lemma loop_body_bullet (fuel : nat) (lines : list str) (i : nat) (raw : str)
    (flow : list flowable) :
  is_bullet_line raw = true ->
  loop_body paragraph_error styles fuel lines i raw flow =
  match bullet_loop paragraph_error styles fuel lines i [] with
  | Some (Return (i', items)) =>
      Some (Return (i', flow ++ [ListFlowable items "bullet" [bullet_sign] 6;
                                 Spacer 1 4]))
  | Some (Raise e) => Some (Raise e)
  | None => None
  end.
Proof.
  intros B. unfold loop_body.
  pose proof (bullet_not_blank _ B) as Hb. unfold is_blank_line in Hb.
  destruct (strip (rstrip raw)); [discriminate|].
  destruct (startswith (lit "## ") (rstrip raw)) eqn:H2.
  { rewrite (heading_not_bullet _ _ H2) in B. discriminate. }
  destruct (startswith (lit "### ") (rstrip raw)) eqn:H3.
  { rewrite (heading_not_bullet _ _ H3) in B. discriminate. }
  rewrite bullet_test_rstrip, B. reflexivity.
Qed.

(** The outer loop, started at index [i] with enough fuel, appends the
    layout of the lines from [i] on, unless a text of it is refused. *)
Lemma while_loop_layout (fuel : nat) :
  forall (lines : list str) (i : nat) (flow : list flowable),
    length lines - i < fuel ->
    while_loop paragraph_error styles fuel lines i flow =
    Some (match first_rejected paragraph_error
                  (layout styles (skipn i lines)) with
          | Some e => Raise e
          | None => Return (flow ++ layout styles (skipn i lines))
          end).
Proof.
  induction fuel as [|fuel IH]; intros lines i flow Hf; [lia|].
  cbn [while_loop]. destruct (nth_error lines i) as [raw|] eqn:E.
  - assert (Hi : i < length lines)
      by (apply nth_error_Some; congruence).
    rewrite (skipn_at _ _ _ E).
    destruct (is_bullet_line raw) eqn:B.
    + rewrite (loop_body_bullet _ _ _ _ _ B).
      rewrite bullet_loop_run by lia. cbv zeta.
      rewrite (skipn_at _ _ _ E). cbn [leading_bullets]. rewrite B.
      rewrite (layout_bullet _ _ B).
      cbn [first_rejected]. unfold BulletList at 1. rewrite rejected_list.
      destruct (first_rejected paragraph_error
                  (map (fun t => ListItem (Paragraph t (body styles)) 12)
                     (map bullet_text
                        (raw :: leading_bullets (skipn (S i) lines)))));
        [reflexivity|].
      rewrite IH by (cbn [length]; lia). cbn [length rejected].
      replace (i + S (length (leading_bullets (skipn (S i) lines))))
        with (length (leading_bullets (skipn (S i) lines)) + S i) by lia.
      rewrite <- skipn_skipn, skipn_leading.
      destruct (first_rejected paragraph_error
                  (layout styles (after_bullets (skipn (S i) lines))));
        [reflexivity|].
      rewrite <- app_assoc. reflexivity.
    + rewrite (loop_body_plain _ _ _ _ _ B).
      rewrite (layout_plain _ _ B). cbn [first_rejected].
      destruct (rejected paragraph_error (plain_element styles raw));
        [reflexivity|].
      rewrite IH by lia.
      destruct (first_rejected paragraph_error
                  (layout styles (skipn (S i) lines))); [reflexivity|].
      rewrite <- app_assoc. reflexivity.
  - rewrite (skipn_past _ _ E). unfold layout. cbn. rewrite app_nil_r.
    reflexivity.
Qed.

Lemma flowables_of_lines_layout (lines : list str) :
  flowables_of_lines paragraph_error styles lines =
  Some (built paragraph_error (layout styles lines)).
Proof.
  unfold flowables_of_lines. rewrite while_loop_layout by lia.
  reflexivity.
Qed.

Lemma markdown_to_flowables_layout (md_text : str) :
  markdown_to_flowables paragraph_error styles md_text =
  Some (built paragraph_error (layout styles (splitlines md_text))).
Proof. apply flowables_of_lines_layout. Qed.

(** What the returned flowables are, and when they are returned. *)
Lemma built_return (flow flow' : list flowable) :
  built paragraph_error flow = Return flow' ->
  flow' = flow /\ first_rejected paragraph_error flow = None.
Proof.
  unfold built. destruct (first_rejected paragraph_error flow);
    [discriminate|].
  intros H. injection H as <-. split; reflexivity.
Qed.

Lemma built_accepted (flow : list flowable) :
  first_rejected paragraph_error flow = None ->
  built paragraph_error flow = Return flow.
Proof. intros H. unfold built. rewrite H. reflexivity. Qed.

Lemma built_app (a b flow : list flowable) :
  built paragraph_error (a ++ b) = Return flow ->
  built paragraph_error a = Return a /\
  built paragraph_error b = Return b /\ flow = a ++ b.
Proof.
  intros H. apply built_return in H. destruct H as [-> H].
  rewrite first_rejected_app in H.
  destruct (first_rejected paragraph_error a) eqn:Ea; [discriminate|].
  repeat split; apply built_accepted; assumption.
Qed.

End LoopFacts.

(** ** The layout around a line and around a run of bullet lines *)

Section LayoutFacts.
Import StripFacts LineFacts.

Variable styles : StyleSheet.

Lemma blocks_around_plain (pre : list str) (raw : str) (post : list str) :
  is_bullet_line raw = false ->
  blocks (pre ++ raw :: post) = blocks pre ++ Single raw :: blocks post.
Proof.
  intros B. induction pre as [|l pre IH].
  - cbn [app blocks]. rewrite B. reflexivity.
  - cbn [app blocks]. rewrite IH.
    destruct (is_bullet_line l); [|reflexivity].
    destruct (blocks pre) as [|[s|raws] bs]; reflexivity.
Qed.

Lemma layout_around_plain (pre : list str) (raw : str) (post : list str) :
  is_bullet_line raw = false ->
  layout styles (pre ++ raw :: post) =
  layout styles pre ++ plain_element styles raw :: layout styles post.
Proof.
  intros B. unfold layout. rewrite (blocks_around_plain _ _ _ B).
  rewrite flat_map_app. reflexivity.
Qed.

Lemma leading_of_run (run post : list str) :
  Forall (fun raw => is_bullet_line raw = true) run ->
  starts_plain post ->
  leading_bullets (run ++ post) = run /\ after_bullets (run ++ post) = post.
Proof.
  intros Hrun Hpost. induction Hrun as [|raw run B _ [IH1 IH2]].
  - destruct post as [|l post']; [split; reflexivity|].
    cbn [app leading_bullets after_bullets].
    rewrite (Hpost l post' eq_refl). split; reflexivity.
  - cbn [app leading_bullets after_bullets]. rewrite B, IH1, IH2.
    split; reflexivity.
Qed.

Lemma layout_run (run post : list str) :
  run <> [] ->
  Forall (fun raw => is_bullet_line raw = true) run ->
  starts_plain post ->
  layout styles (run ++ post) =
  BulletList styles (map bullet_text run) :: Spacer 1 4
    :: layout styles post.
Proof.
  intros Hne Hrun Hpost. destruct run as [|raw run]; [congruence|].
  inversion Hrun as [|? ? B Hrest]; subst.
  cbn [app]. rewrite (layout_bullet styles _ _ B).
  destruct (leading_of_run run post Hrest Hpost) as [-> ->].
  reflexivity.
Qed.

Lemma layout_around_run (pre run post : list str) :
  run <> [] ->
  Forall (fun raw => is_bullet_line raw = true) run ->
  ends_plain pre -> starts_plain post ->
  layout styles (pre ++ run ++ post) =
  layout styles pre
    ++ [BulletList styles (map bullet_text run); Spacer 1 4]
    ++ layout styles post.
Proof.
  intros Hne Hrun Hpre Hpost.
  destruct pre as [|l pre'] using rev_ind.
  - cbn [app]. rewrite (layout_run _ _ Hne Hrun Hpost). reflexivity.
  - clear IHpre'. pose proof (Hpre pre' l eq_refl) as B.
    rewrite <- app_assoc. cbn [app].
    rewrite (layout_around_plain _ _ _ B).
    rewrite (layout_run _ _ Hne Hrun Hpost).
    replace (pre' ++ [l]) with (pre' ++ l :: []) by reflexivity.
    rewrite (layout_around_plain _ _ _ B).
    rewrite <- app_assoc. reflexivity.
Qed.

Lemma blocks_ok (lines : list str) : Forall block_ok (blocks lines).
Proof.
  induction lines as [|raw rest IH]; [constructor|].
  cbn [blocks]. destruct (is_bullet_line raw) eqn:B.
  - destruct (blocks rest) as [|[s|raws] bs].
    + repeat constructor; [discriminate|exact B].
    + constructor; [|exact IH].
      split; [discriminate|]. repeat constructor. exact B.
    + inversion IH as [|? ? Hb Hbs]; subst. destruct Hb as [_ Hr].
      constructor; [|exact Hbs].
      split; [discriminate|]. constructor; assumption.
  - constructor; assumption.
Qed.

Lemma blocks_cover (lines : list str) :
  concat (map block_lines (blocks lines)) = lines.
Proof.
  induction lines as [|raw rest IH]; [reflexivity|].
  cbn [blocks]. destruct (is_bullet_line raw).
  - destruct (blocks rest) as [|[s|raws] bs]; cbn in *; congruence.
  - cbn. congruence.
Qed.

Lemma item_texts (texts : list str) :
  flat_map visible_text
    (map (fun t => ListItem (Paragraph t (body styles)) 12) texts) = texts.
Proof.
  induction texts as [|t texts IH]; [reflexivity|].
  cbn. f_equal. exact IH.
Qed.

Lemma block_texts (b : block) :
  block_ok b ->
  flat_map visible_text (emit styles b) =
  map (line_text)
    (filter (fun raw => negb (is_blank_line raw)) (block_lines b)).
Proof.
  destruct b as [raw|raws]; cbn [block_ok emit block_lines].
  - intros B. cbn [filter]. unfold plain_element.
    destruct (is_blank_line raw); [reflexivity|].
    cbn [negb map]. unfold line_text. rewrite B.
    destruct (startswith (lit "## ") (rstrip raw)); [reflexivity|].
    destruct (startswith (lit "### ") (rstrip raw)); reflexivity.
  - intros [_ Hr]. cbn [flat_map visible_text BulletList app].
    unfold BulletList. cbn [visible_text]. rewrite item_texts, app_nil_r.
    induction Hr as [|raw raws B _ IH]; [reflexivity|].
    cbn [map filter]. rewrite (bullet_not_blank _ B). cbn [negb map].
    unfold line_text at 1. rewrite B. f_equal. exact IH.
Qed.

Lemma layout_texts (lines : list str) :
  flat_map visible_text (layout styles lines) =
  map line_text (filter (fun raw => negb (is_blank_line raw)) lines).
Proof.
  rewrite <- (blocks_cover lines) at 2. unfold layout.
  pose proof (blocks_ok lines) as Hok.
  induction Hok as [|b bs Hb _ IH]; [reflexivity|].
  cbn [flat_map map concat].
  rewrite flat_map_app, filter_app, map_app, (block_texts _ Hb), IH.
  reflexivity.
Qed.


End LayoutFacts.
(** ** More on the layout *)

Section LayoutMore.
Import StripFacts LineFacts SpaceFacts.

Variable styles : StyleSheet.

Lemma leading_are_bullets (lines : list str) :
  Forall (fun raw => is_bullet_line raw = true) (leading_bullets lines).
Proof.
  induction lines as [|raw rest IH]; [constructor|].
  cbn [leading_bullets]. destruct (is_bullet_line raw) eqn:B;
    constructor; assumption.
Qed.

Lemma after_length (lines : list str) :
  length (after_bullets lines) <= length lines.
Proof.
  induction lines as [|raw rest IH]; [reflexivity|].
  cbn [after_bullets]. destruct (is_bullet_line raw); cbn [length]; lia.
Qed.

Section Respect.

(** A relation between lines that keeps what the parse looks at. *)
Variable R : str -> str -> Prop.
Hypothesis R_bullet :
  forall raw raw', R raw raw' -> is_bullet_line raw' = is_bullet_line raw.
Hypothesis R_text :
  forall raw raw', R raw raw' -> is_bullet_line raw = true ->
                   bullet_text raw' = bullet_text raw.
Hypothesis R_plain :
  forall raw raw', R raw raw' -> is_bullet_line raw = false ->
                   plain_element styles raw' = plain_element styles raw.

Lemma leading_respects (lines lines' : list str) :
  Forall2 R lines lines' ->
  Forall2 R (leading_bullets lines) (leading_bullets lines') /\
  Forall2 R (after_bullets lines) (after_bullets lines').
Proof.
  induction 1 as [|raw raw' rest rest' Hr Hrest [IH1 IH2]].
  - split; constructor.
  - cbn [leading_bullets after_bullets]. rewrite (R_bullet _ _ Hr).
    destruct (is_bullet_line raw).
    + split; [constructor; assumption|assumption].
    + split; [constructor|constructor; assumption].
Qed.

Lemma bullet_texts_respect (run run' : list str) :
  Forall2 R run run' ->
  Forall (fun raw => is_bullet_line raw = true) run ->
  map bullet_text run' = map bullet_text run.
Proof.
  induction 1 as [|raw raw' run run' Hr _ IH]; [reflexivity|].
  intros Hb. inversion Hb as [|? ? B Hb']; subst.
  cbn [map]. rewrite (R_text _ _ Hr B), (IH Hb'). reflexivity.
Qed.

Lemma layout_respects (n : nat) :
  forall lines lines',
    length lines <= n -> Forall2 R lines lines' ->
    layout styles lines' = layout styles lines.
Proof.
  induction n as [|n IH]; intros lines lines' Hn HR.
  - destruct HR; [reflexivity|cbn [length] in Hn; lia].
  - destruct HR as [|raw raw' rest rest' Hr Hrest]; [reflexivity|].
    cbn [length] in Hn. destruct (is_bullet_line raw) eqn:B.
    + pose proof (R_bullet _ _ Hr) as B'. rewrite B in B'.
      rewrite (layout_bullet styles _ _ B), (layout_bullet styles _ _ B').
      destruct (leading_respects _ _ Hrest) as [Hl Ha].
      assert (Hrun : Forall2 R (raw :: leading_bullets rest)
                       (raw' :: leading_bullets rest'))
        by (constructor; assumption).
      rewrite (bullet_texts_respect _ _ Hrun)
        by (constructor; [exact B|apply leading_are_bullets]).
      rewrite (IH (after_bullets rest) (after_bullets rest')); [reflexivity| |exact Ha].
      pose proof (after_length rest). lia.
    + pose proof (R_bullet _ _ Hr) as B'. rewrite B in B'.
      rewrite (layout_plain styles _ _ B), (layout_plain styles _ _ B').
      rewrite (R_plain _ _ Hr B), (IH rest rest'); [reflexivity|lia|exact Hrest].
Qed.

End Respect.

Lemma padded_bullet (raw raw' : str) :
  padded raw raw' -> is_bullet_line raw' = is_bullet_line raw.
Proof.
  intros (ws & Hws & ->).
  rewrite <- (bullet_test_rstrip (raw ++ ws)), <- (bullet_test_rstrip raw).
  rewrite (rstrip_pad _ _ Hws). reflexivity.
Qed.

Lemma padded_text (raw raw' : str) :
  padded raw raw' -> is_bullet_line raw = true ->
  bullet_text raw' = bullet_text raw.
Proof.
  intros (ws & Hws & ->) B. unfold bullet_text, slice_from.
  unfold is_bullet_line in B.
  destruct (bullet_head _ B) as (c & r & E & _ & _).
  rewrite lstrip_app by congruence. rewrite E. cbn [app skipn].
  unfold strip. rewrite (rstrip_pad _ _ Hws). reflexivity.
Qed.

Lemma padded_plain (raw raw' : str) :
  padded raw raw' ->
  plain_element styles raw' = plain_element styles raw.
Proof.
  intros (ws & Hws & ->). unfold plain_element, is_blank_line.
  rewrite (rstrip_pad _ _ Hws). reflexivity.
Qed.

Lemma indented_bullet (raw raw' : str) :
  indented raw raw' -> is_bullet_line raw' = is_bullet_line raw.
Proof.
  intros [->|(_ & ws & Hws & ->)]; [reflexivity|].
  unfold is_bullet_line. rewrite (lstrip_blank _ _ Hws). reflexivity.
Qed.

Lemma indented_text (raw raw' : str) :
  indented raw raw' -> bullet_text raw' = bullet_text raw.
Proof.
  intros [->|(_ & ws & Hws & ->)]; [reflexivity|].
  unfold bullet_text. rewrite (lstrip_blank _ _ Hws). reflexivity.
Qed.

Lemma indented_plain (raw raw' : str) :
  indented raw raw' -> is_bullet_line raw = false ->
  plain_element styles raw' = plain_element styles raw.
Proof. intros [->|(B & _)] B'; [reflexivity|congruence]. Qed.

(** Reasoning on the layout follows the way it is built: nothing, a line
    that is not a bullet line and the rest, or a run of bullet lines and
    what comes after the run. *)
Lemma layout_cases (P : list str -> list flowable -> Prop) :
  P [] [] ->
  (forall raw rest,
      is_bullet_line raw = false ->
      P rest (layout styles rest) ->
      P (raw :: rest) (plain_element styles raw :: layout styles rest)) ->
  (forall raw rest,
      is_bullet_line raw = true ->
      P (after_bullets rest) (layout styles (after_bullets rest)) ->
      P (raw :: rest)
        (BulletList styles (map bullet_text (raw :: leading_bullets rest))
           :: Spacer 1 4 :: layout styles (after_bullets rest))) ->
  forall lines, P lines (layout styles lines).
Proof.
  intros Hnil Hplain Hrun lines.
  assert (H : forall n lines, length lines <= n ->
                              P lines (layout styles lines)).
  { clear lines. induction n as [|n IH]; intros lines Hn.
    - destruct lines; [exact Hnil|cbn [length] in Hn; lia].
    - destruct lines as [|raw rest]; [exact Hnil|].
      cbn [length] in Hn. destruct (is_bullet_line raw) eqn:B.
      + rewrite (layout_bullet styles _ _ B). apply (Hrun _ _ B).
        apply IH. pose proof (after_length rest). lia.
      + rewrite (layout_plain styles _ _ B). apply (Hplain _ _ B).
        apply IH. lia. }
  exact (H (length lines) lines (le_n _)).
Qed.

Lemma plain_element_ok (raw : str) : element_ok styles (plain_element styles raw).
Proof.
  unfold plain_element, element_ok.
  destruct (is_blank_line raw) eqn:Hb; [left; reflexivity|].
  right. right.
  assert (Hne : rstrip raw <> []).
  { unfold is_blank_line in Hb. intros E. rewrite E in Hb. discriminate. }
  assert (Hheading : forall p,
             startswith p (rstrip raw) = true ->
             rstrip p <> p ->
             strip (slice_from (length p) (rstrip raw)) <> []).
  { intros p Hp Hnp. pose proof (startswith_app _ _ Hp) as E.
    unfold slice_from. set (u := skipn (length p) (rstrip raw)) in *.
    assert (Hu : rstrip u = u).
    { apply (rstrip_suffix p). rewrite <- E. apply rstrip_idem. }
    apply (rstripped_not_blank _ Hu). intros ->.
    rewrite app_nil_r in E. apply Hnp. rewrite <- E. apply rstrip_idem. }
  destruct (startswith (lit "## ") (rstrip raw)) eqn:H2;
    [|destruct (startswith (lit "### ") (rstrip raw)) eqn:H3].
  - left. exists (strip (slice_from 3 (rstrip raw))).
    split; [left; reflexivity|]. split; [|apply strip_idem].
    apply (Hheading (lit "## ") H2). discriminate.
  - left. exists (strip (slice_from 4 (rstrip raw))).
    split; [right; reflexivity|]. split; [|apply strip_idem].
    apply (Hheading (lit "### ") H3). discriminate.
  - right. left. exists (rstrip raw).
    split; [reflexivity|]. split; [exact Hne|apply rstrip_idem].
Qed.

Lemma bullet_list_ok (raws : list str) :
  raws <> [] ->
  element_ok styles (BulletList styles (map bullet_text raws)).
Proof.
  intros Hne. right. right. right. right.
  exists (map bullet_text raws). split; [reflexivity|]. split.
  - destruct raws; [congruence|discriminate].
  - apply Forall_map, Forall_forall. intros raw _. apply strip_idem.
Qed.

Lemma layout_ok (lines : list str) : Forall (element_ok styles) (layout styles lines).
Proof.
  apply (layout_cases (fun _ flow => Forall (element_ok styles) flow)).
  - constructor.
  - intros raw rest _ IH. constructor; [apply plain_element_ok|exact IH].
  - intros raw rest _ IH.
    constructor; [apply bullet_list_ok; discriminate|].
    constructor; [right; left; reflexivity|exact IH].
Qed.

Lemma plain_element_not_list (raw : str) :
  is_list (plain_element styles raw) = false.
Proof.
  unfold plain_element. destruct (is_blank_line raw); [reflexivity|].
  destruct (startswith (lit "## ") (rstrip raw)); [reflexivity|].
  destruct (startswith (lit "### ") (rstrip raw)); reflexivity.
Qed.

Lemma after_starts_plain (lines : list str) (raw : str) (rest : list str) :
  after_bullets lines = raw :: rest -> is_bullet_line raw = false.
Proof.
  induction lines as [|l lines IH]; [discriminate|].
  cbn [after_bullets]. destruct (is_bullet_line l) eqn:B; [exact IH|].
  intros E. injection E as <- _. exact B.
Qed.

Lemma layout_spaced (lines : list str) :
  lists_spaced (layout styles lines) = true.
Proof.
  apply (layout_cases (fun _ flow => lists_spaced flow = true)).
  - reflexivity.
  - intros raw rest _ IH. cbn [lists_spaced].
    rewrite plain_element_not_list. exact IH.
  - intros raw rest _ IH. cbn [lists_spaced BulletList is_list is_list_spacer].
    rewrite IH, andb_true_r. cbn [andb].
    destruct (after_bullets rest) as [|r rest'] eqn:E; [reflexivity|].
    rewrite (layout_plain styles _ _ (after_starts_plain _ _ _ E)).
    rewrite plain_element_not_list. reflexivity.
Qed.

Lemma bullets_split (lines : list str) :
  length lines =
    length (leading_bullets lines) + length (after_bullets lines) /\
  length (filter is_bullet_line lines) =
    length (leading_bullets lines)
    + length (filter is_bullet_line (after_bullets lines)).
Proof.
  induction lines as [|raw rest [IH1 IH2]]; [split; reflexivity|].
  cbn [leading_bullets after_bullets filter].
  destruct (is_bullet_line raw) eqn:B.
  - cbn [length]. lia.
  - cbn [length filter]. rewrite B. cbn [length]. lia.
Qed.

Lemma layout_count (lines : list str) :
  let bullets := length (filter is_bullet_line lines) in
  length lines <= length (layout styles lines) + bullets /\
  length (layout styles lines) <= length lines + bullets /\
  length (layout styles lines) <= 2 * length lines /\
  Nat.eqb (length (layout styles lines)) 0 = Nat.eqb (length lines) 0.
Proof.
  apply (layout_cases
           (fun lines flow =>
              let bullets := length (filter is_bullet_line lines) in
              length lines <= length flow + bullets /\
              length flow <= length lines + bullets /\
              length flow <= 2 * length lines /\
              Nat.eqb (length flow) 0 = Nat.eqb (length lines) 0)).
  - cbn. repeat split; lia.
  - intros raw rest B (H1 & H2 & H3 & _). cbn zeta in *.
    cbn [filter length]. rewrite B. repeat split; try lia.
  - intros raw rest B (H1 & H2 & H3 & _). cbn zeta in *.
    destruct (bullets_split rest) as [E1 E2].
    cbn [filter length]. rewrite B. cbn [length]. repeat split; try lia.
Qed.

Lemma line_text_one_line (raw : str) : one_line raw -> one_line (line_text raw).
Proof.
  intros H. unfold line_text, bullet_text, slice_from, one_line in *.
  destruct (is_bullet_line raw).
  - apply Forall_strip, Forall_skipn, Forall_lstrip, H.
  - destruct (startswith (lit "## ") (rstrip raw));
      [apply Forall_strip, Forall_skipn, Forall_rstrip, H|].
    destruct (startswith (lit "### ") (rstrip raw));
      [apply Forall_strip, Forall_skipn, Forall_rstrip, H|].
    apply Forall_rstrip, H.
Qed.

Lemma layout_seam (pre post : list str) :
  ends_plain pre \/ starts_plain post ->
  layout styles (pre ++ post) = layout styles pre ++ layout styles post.
Proof.
  intros [Hpre|Hpost].
  - destruct pre as [|l pre'] using rev_ind.
    + reflexivity.
    + clear IHpre'. pose proof (Hpre pre' l eq_refl) as B.
      rewrite <- app_assoc. cbn [app].
      rewrite (layout_around_plain styles _ _ _ B).
      replace (pre' ++ [l]) with (pre' ++ l :: []) by reflexivity.
      rewrite (layout_around_plain styles _ _ _ B).
      rewrite <- app_assoc. reflexivity.
  - destruct post as [|l post'].
    + rewrite app_nil_r. unfold layout at 3. cbn. rewrite app_nil_r.
      reflexivity.
    + pose proof (Hpost l post' eq_refl) as B.
      rewrite (layout_around_plain styles _ _ _ B).
      rewrite (layout_plain styles _ _ B). reflexivity.
Qed.

Lemma leading_in (lines : list str) (raw : str) :
  In raw (leading_bullets lines) -> In raw lines.
Proof.
  intros H. rewrite (leading_after lines). apply in_or_app. left. exact H.
Qed.

Lemma after_in (lines : list str) (raw : str) :
  In raw (after_bullets lines) -> In raw lines.
Proof.
  intros H. rewrite (leading_after lines). apply in_or_app. right. exact H.
Qed.

End LayoutMore.

(** ** When the flowables of a layout are returned *)

Section BuiltFacts.
Import StripFacts LineFacts SpaceFacts.

Variable paragraph_error : MarkupParser.
Variable styles : StyleSheet.

Lemma has_markup_unmarked (s : str) :
  has_markup s = false <-> Forall unmarked s.
Proof.
  unfold has_markup. induction s as [|c s IH].
  - split; [constructor|reflexivity].
  - cbn [existsb]. split.
    + intros H. apply orb_false_iff in H. destruct H as [Hc Hs].
      constructor; [exact Hc|]. apply IH, Hs.
    + intros H. inversion H as [|? ? Hc Hs]; subst.
      apply orb_false_iff. split; [exact Hc|]. apply IH, Hs.
Qed.


Lemma check_refused (text : str) (style : ParagraphStyle) (e : exn) :
  paragraph_check paragraph_error text style = Some e ->
  has_markup text = true /\ paragraph_error text style = Some e.
Proof.
  unfold paragraph_check. destruct (has_markup text); [|discriminate].
  intros H. split; [reflexivity|exact H].
Qed.

Lemma line_text_unmarked (raw : str) :
  has_markup raw = false -> has_markup (line_text raw) = false.
Proof.
  intros H. apply has_markup_unmarked. apply has_markup_unmarked in H.
  unfold line_text, bullet_text, slice_from.
  destruct (is_bullet_line raw).
  - apply Forall_strip, Forall_skipn, Forall_lstrip, H.
  - destruct (startswith (lit "## ") (rstrip raw));
      [apply Forall_strip, Forall_skipn, Forall_rstrip, H|].
    destruct (startswith (lit "### ") (rstrip raw));
      [apply Forall_strip, Forall_skipn, Forall_rstrip, H|].
    apply Forall_rstrip, H.
Qed.

(** What making the element of a line that is not a bullet line can
    raise: the verdict on the text of the line. *)
Lemma plain_rejected (raw : str) :
  is_bullet_line raw = false ->
  rejected paragraph_error (plain_element styles raw) = None \/
  (is_blank_line raw = false /\
   exists style,
     rejected paragraph_error (plain_element styles raw) =
     paragraph_check paragraph_error (line_text raw) style).
Proof.
  intros B. unfold plain_element, line_text. rewrite B.
  destruct (is_blank_line raw); [left; reflexivity|]. right.
  split; [reflexivity|].
  destruct (startswith (lit "## ") (rstrip raw));
    [eexists; reflexivity|].
  destruct (startswith (lit "### ") (rstrip raw)); eexists; reflexivity.
Qed.

Lemma items_rejected (run : list str) (e : exn) :
  Forall (fun raw => is_bullet_line raw = true) run ->
  first_rejected paragraph_error
    (map (fun t => ListItem (Paragraph t (body styles)) 12)
       (map bullet_text run)) = Some e ->
  exists raw, In raw run /\
              paragraph_check paragraph_error (line_text raw) (body styles)
              = Some e.
Proof.
  induction 1 as [|raw run B _ IH]; [discriminate|].
  cbn [map first_rejected rejected].
  destruct (paragraph_check paragraph_error (bullet_text raw) (body styles))
    eqn:E.
  - intros H. injection H as ->. exists raw. split; [left; reflexivity|].
    unfold line_text. rewrite B. exact E.
  - intros H. destruct (IH H) as (r & Hin & Hr).
    exists r. split; [right; exact Hin|exact Hr].
Qed.

(** An exception of the parse is the verdict of ReportLab on the text of
    a line that is not blank and holds a markup character. *)
Lemma layout_error_source (e : exn) (lines : list str) :
  first_rejected paragraph_error (layout styles lines) = Some e ->
  exists raw style,
    In raw lines /\ is_blank_line raw = false /\
    has_markup (line_text raw) = true /\
    paragraph_error (line_text raw) style = Some e.
Proof.
  apply (layout_cases styles
           (fun lines flow =>
              first_rejected paragraph_error flow = Some e ->
              exists raw style,
                In raw lines /\ is_blank_line raw = false /\
                has_markup (line_text raw) = true /\
                paragraph_error (line_text raw) style = Some e)).
  - discriminate.
  - intros raw rest B IH. cbn [first_rejected].
    destruct (rejected paragraph_error (plain_element styles raw)) eqn:E.
    + intros H. injection H as ->.
      destruct (plain_rejected raw B) as [Hn|(Hb & style & Hs)];
        [congruence|].
      rewrite Hs in E. apply check_refused in E. destruct E as [Hm He].
      exists raw, style. repeat split; try assumption. left. reflexivity.
    + intros H. destruct (IH H) as (r & style & Hin & Hr).
      exists r, style. split; [right; exact Hin|exact Hr].
  - intros raw rest B IH. cbn [first_rejected]. unfold BulletList.
    rewrite rejected_list.
    destruct (first_rejected paragraph_error
                (map (fun t => ListItem (Paragraph t (body styles)) 12)
                   (map bullet_text (raw :: leading_bullets rest)))) eqn:E.
    + intros H. injection H as ->.
      apply items_rejected in E;
        [|constructor; [exact B|apply leading_are_bullets]].
      destruct E as (r & Hin & Hr). apply check_refused in Hr.
      destruct Hr as [Hm He]. exists r, (body styles).
      split.
      { destruct Hin as [<-|Hin]; [left; reflexivity|].
        right. apply leading_in. exact Hin. }
      split; [|split; assumption].
      apply bullet_not_blank.
      destruct Hin as [<-|Hin]; [exact B|].
      exact (proj1 (Forall_forall _ _) (leading_are_bullets rest) r Hin).
    + cbn [rejected]. intros H. destruct (IH H) as (r & style & Hin & Hr).
      exists r, style. split; [right; apply after_in; exact Hin|exact Hr].
Qed.

(** The flowables of lines without markup character are returned. *)
Lemma layout_accepted (lines : list str) :
  Forall (fun raw => has_markup raw = false) lines ->
  first_rejected paragraph_error (layout styles lines) = None.
Proof.
  intros H.
  destruct (first_rejected paragraph_error (layout styles lines)) as [e|]
    eqn:E; [|reflexivity].
  apply layout_error_source in E.
  destruct E as (raw & style & Hin & _ & Hm & _).
  rewrite (line_text_unmarked raw) in Hm; [discriminate|].
  exact (proj1 (Forall_forall _ _) H raw Hin).
Qed.

End BuiltFacts.

(** ** The parser: claims *)

Section ParserClaims.
Import StripFacts LineFacts SpaceFacts.

Variable paragraph_error : MarkupParser.
Variable styles : StyleSheet.

#[local] Abbreviation parse :=
  (markdown_to_flowables paragraph_error styles).
#[local] Abbreviation parse_lines :=
  (flowables_of_lines paragraph_error styles).

(** The returned parse of a text whose lines are [pre], one line that is
    not a bullet line, and [post]. *)
Lemma parse_around_plain (md_text : str) (pre : list str) (raw : str)
    (post : list str) (flow : list flowable) :
  splitlines md_text = pre ++ raw :: post ->
  is_bullet_line raw = false ->
  parse md_text = Some (Return flow) ->
  exists before after,
    parse_lines pre = Some (Return before) /\
    parse_lines post = Some (Return after) /\
    flow = before ++ plain_element styles raw :: after.
Proof.
  intros Hl B. rewrite markdown_to_flowables_layout, Hl.
  rewrite (layout_around_plain styles _ _ _ B). intros H.
  injection H as H. apply built_app in H. destruct H as (Hpre & Hrest & ->).
  change (plain_element styles raw :: layout styles post)
    with ([plain_element styles raw] ++ layout styles post) in Hrest.
  apply built_app in Hrest. destruct Hrest as (_ & Hpost & _).
  exists (layout styles pre), (layout styles post).
  rewrite !flowables_of_lines_layout, Hpre, Hpost. repeat split.
Qed.

(** The lines of a text hold its characters that are not line
    boundaries, in order. *)
Lemma splitlines_from_chars (s : str) :
  (forall cur, concat (splitlines_from cur s)
               = rev cur ++ filter (fun c => negb (is_linebreak c)) s) /\
  (forall d cur, concat (splitlines_from cur (d :: s))
                 = rev cur ++ filter (fun c => negb (is_linebreak c))
                                (d :: s)).
Proof.
  induction s as [|d' s [IH1 IH2]].
  - assert (H0 : forall cur, concat (splitlines_from cur [])
                             = rev cur ++ []).
    { intros cur. cbn [splitlines_from]. destruct cur; reflexivity. }
    split; [exact H0|]. intros d cur. cbn [splitlines_from filter].
    destruct (is_linebreak d); cbn [negb concat rev];
      rewrite ?app_nil_r; reflexivity.
  - split; [intros cur; apply IH2|].
    intros d cur.
    change (splitlines_from cur (d :: d' :: s))
      with (if is_linebreak d
            then rev cur ::
                   (if N.eqb d 13 && N.eqb d' 10
                    then splitlines_from [] s
                    else splitlines_from [] (d' :: s))
            else splitlines_from (d :: cur) (d' :: s)).
    change (filter (fun c => negb (is_linebreak c)) (d :: d' :: s))
      with (if negb (is_linebreak d)
            then d :: filter (fun c => negb (is_linebreak c)) (d' :: s)
            else filter (fun c => negb (is_linebreak c)) (d' :: s)).
    destruct (is_linebreak d) eqn:Hd; cbn [negb].
    + cbn [concat]. f_equal.
      destruct (N.eqb d 13 && N.eqb d' 10) eqn:E.
      * apply andb_true_iff in E. destruct E as [_ E].
        apply N.eqb_eq in E. subst d'. rewrite IH1. reflexivity.
      * rewrite (IH2 d' []). reflexivity.
    + rewrite (IH2 d' (d :: cur)). cbn [rev]. rewrite <- app_assoc.
      reflexivity.
Qed.

Lemma splitlines_chars (s : str) :
  concat (splitlines s) = filter (fun c => negb (is_linebreak c)) s.
Proof. apply (proj1 (splitlines_from_chars s) []). Qed.

(** The flowables of a text without markup character are all made. *)
Lemma markup_free_built (md_text : str) :
  has_markup md_text = false ->
  built paragraph_error (layout styles (splitlines md_text))
  = Return (layout styles (splitlines md_text)).
Proof.
  intros Hm. apply built_accepted, layout_accepted.
  apply has_markup_unmarked in Hm.
  assert (Hall : Forall unmarked (concat (splitlines md_text))).
  { rewrite splitlines_chars. apply Forall_forall. intros c Hc.
    apply filter_In in Hc.
    exact (proj1 (Forall_forall _ _) Hm c (proj1 Hc)). }
  apply Forall_forall. intros raw Hin. apply has_markup_unmarked.
  apply Forall_forall. intros c Hc.
  apply (proj1 (Forall_forall _ _) Hall c).
  apply in_concat. exists raw. split; assumption.
Qed.

(** The parse ends; it returns the layout of the lines when it returns,
    and it returns when the text has no markup character. *)
Lemma parse_outcome (md_text : str) :
  exists result,
    parse md_text = Some result /\
    (has_markup md_text = false ->
     result = Return (layout styles (splitlines md_text))) /\
    (forall flow,
        result = Return flow -> flow = layout styles (splitlines md_text)).
Proof.
  exists (built paragraph_error (layout styles (splitlines md_text))).
  split; [apply markdown_to_flowables_layout|]. split.
  - apply markup_free_built.
  - intros flow H. apply built_return in H. exact (proj1 H).
Qed.


(** C4, as the code has it: when the parse returns, a maximal run of
    bullet lines gives exactly one bullet list, whose items are the lines
    without marker and surrounding white space, in order, followed by one
    spacer; what comes before and after is the parse of the lines before
    and after.  The lines "- A", "* B", "• C" give one list of three
    items, and a bullet line standing alone gives a list of one item. *)
Theorem bullet_run_one_list :
  (forall (md_text : str) (pre run post : list str) (flow : list flowable),
      splitlines md_text = pre ++ run ++ post ->
      run <> [] ->
      Forall (fun raw => is_bullet_line raw = true) run ->
      ends_plain pre -> starts_plain post ->
      parse md_text = Some (Return flow) ->
      exists before after,
        parse_lines pre = Some (Return before) /\
        parse_lines post = Some (Return after) /\
        flow = before
                 ++ [BulletList styles (map bullet_text run); Spacer 1 4]
                 ++ after) /\
  parse (lit "- A" ++ nl ++ lit "* B" ++ nl ++ bullet_sign :: lit " C") =
  Some (Return [BulletList styles [lit "A"; lit "B"; lit "C"]; Spacer 1 4]) /\
  parse (lit "Bring:" ++ nl ++ lit "- Passport" ++ nl ++ lit "Enjoy.") =
  Some (Return [Paragraph (lit "Bring:") (body styles);
                BulletList styles [lit "Passport"]; Spacer 1 4;
                Paragraph (lit "Enjoy.") (body styles)]).
Proof.
  split; [|split; reflexivity].
  intros md_text pre run post flow Hl Hne Hrun Hpre Hpost.
  rewrite markdown_to_flowables_layout, Hl.
  rewrite (layout_around_run styles _ _ _ Hne Hrun Hpre Hpost).
  intros H. injection H as H. apply built_app in H.
  destruct H as (Hb & Hrest & ->).
  apply (built_app paragraph_error
           [BulletList styles (map bullet_text run); Spacer 1 4]
           (layout styles post)) in Hrest.
  destruct Hrest as (_ & Ha & _).
  exists (layout styles pre), (layout styles post).
  rewrite !flowables_of_lines_layout, Hb, Ha. repeat split.
Qed.

(** C5: the end-to-end scenario parses to heading 2, paragraph, spacer,
    heading 3, a bullet list of two items and its spacer, whatever
    ReportLab refuses; and in a parse that returns, a blank line anywhere
    gives exactly one spacer. *)
Theorem scenario_elements :
  parse scenario =
  Some (Return [Heading2 styles (lit "Trip Overview");
                Paragraph (lit "A great trip.") (body styles);
                Spacer 1 6;
                Heading3 styles (lit "Day 1");
                BulletList styles [lit "Museum"; lit "Lunch"];
                Spacer 1 4]) /\
  (forall (md_text : str) (pre : list str) (raw : str) (post : list str)
          (flow : list flowable),
      splitlines md_text = pre ++ raw :: post ->
      is_blank_line raw = true ->
      parse md_text = Some (Return flow) ->
      exists before after,
        parse_lines pre = Some (Return before) /\
        parse_lines post = Some (Return after) /\
        flow = before ++ Spacer 1 6 :: after).
Proof.
  split; [reflexivity|].
  intros md_text pre raw post flow Hl Hb Hr.
  destruct (parse_around_plain md_text pre raw post flow Hl
              (blank_not_bullet _ Hb) Hr) as (before & after & H1 & H2 & H3).
  exists before, after. repeat split; try assumption.
  rewrite H3. unfold plain_element. rewrite Hb. reflexivity.
Qed.

(** A line that starts with a marker [p] and has more than white space
    after it keeps the marker when right-stripped. *)
Lemma marker_kept (p raw : str) :
  startswith p raw = true ->
  strip (slice_from (length p) raw) <> [] ->
  rstrip raw = p ++ rstrip (slice_from (length p) raw).
Proof.
  intros Hp Ht. unfold slice_from in *.
  rewrite (startswith_app _ _ Hp) at 1. apply rstrip_app_keep.
  intros E. apply Ht. unfold strip. rewrite E. reflexivity.
Qed.

Lemma slice_after_marker (p t : str) : slice_from (length p) (p ++ t) = t.
Proof.
  unfold slice_from. rewrite skipn_app, skipn_all, Nat.sub_diag.
  reflexivity.
Qed.

Lemma heading2_element (raw : str) :
  startswith (lit "## ") raw = true ->
  strip (slice_from 3 raw) <> [] ->
  is_bullet_line raw = false /\
  plain_element styles raw = Heading2 styles (strip (slice_from 3 raw)).
Proof.
  intros Hp Ht. pose proof (marker_kept (lit "## ") raw Hp Ht) as E.
  change (length (lit "## ")) with 3 in E.
  assert (Hs : startswith (lit "## ") (rstrip raw) = true)
    by (rewrite E; apply startswith_prefix).
  split; [exact (heading_not_bullet _ _ Hs)|].
  unfold plain_element, is_blank_line. rewrite strip_rstrip, Hs.
  unfold strip at 1. rewrite E at 1. cbn [lit list_ascii_of_string map app].
  rewrite (lstrip_keep 35%N _ eq_refl). rewrite E.
  rewrite (slice_after_marker (lit "## ")), strip_rstrip. reflexivity.
Qed.

Lemma heading3_element (raw : str) :
  startswith (lit "### ") raw = true ->
  strip (slice_from 4 raw) <> [] ->
  is_bullet_line raw = false /\
  plain_element styles raw = Heading3 styles (strip (slice_from 4 raw)).
Proof.
  intros Hp Ht. pose proof (marker_kept (lit "### ") raw Hp Ht) as E.
  change (length (lit "### ")) with 4 in E.
  assert (Hs : startswith (lit "### ") (rstrip raw) = true)
    by (rewrite E; apply startswith_prefix).
  split; [exact (heading_not_bullet _ _ Hs)|].
  assert (Hn : startswith (lit "## ") (rstrip raw) = false)
    by (rewrite E; reflexivity).
  unfold plain_element, is_blank_line. rewrite strip_rstrip, Hn, Hs.
  unfold strip at 1. rewrite E at 1. cbn [lit list_ascii_of_string map app].
  rewrite (lstrip_keep 35%N _ eq_refl). rewrite E.
  rewrite (slice_after_marker (lit "### ")), strip_rstrip. reflexivity.
Qed.

(** C6, as the code has it: when the parse returns, a line that starts
    with "## " and has a character that is not white space after the
    marker gives exactly one heading 2 with the rest of the line
    stripped; likewise "### " and heading 3; "## Trip Overview" and
    "### Day 1" are such lines. *)
Theorem heading_lines :
  (forall (md_text : str) (pre : list str) (raw : str) (post : list str)
          (flow : list flowable),
      splitlines md_text = pre ++ raw :: post ->
      startswith (lit "## ") raw = true ->
      strip (slice_from 3 raw) <> [] ->
      parse md_text = Some (Return flow) ->
      exists before after,
        parse_lines pre = Some (Return before) /\
        parse_lines post = Some (Return after) /\
        flow = before ++ Heading2 styles (strip (slice_from 3 raw))
                 :: after) /\
  (forall (md_text : str) (pre : list str) (raw : str) (post : list str)
          (flow : list flowable),
      splitlines md_text = pre ++ raw :: post ->
      startswith (lit "### ") raw = true ->
      strip (slice_from 4 raw) <> [] ->
      parse md_text = Some (Return flow) ->
      exists before after,
        parse_lines pre = Some (Return before) /\
        parse_lines post = Some (Return after) /\
        flow = before ++ Heading3 styles (strip (slice_from 4 raw))
                 :: after) /\
  parse (lit "## Trip Overview") =
    Some (Return [Heading2 styles (lit "Trip Overview")]) /\
  parse (lit "### Day 1") =
    Some (Return [Heading3 styles (lit "Day 1")]).
Proof.
  split; [|split; [|split; reflexivity]].
  - intros md_text pre raw post flow Hl Hp Ht Hr.
    destruct (heading2_element raw Hp Ht) as [B E].
    destruct (parse_around_plain md_text pre raw post flow Hl B Hr)
      as (before & after & H1 & H2 & H3).
    exists before, after. rewrite <- E. repeat split; assumption.
  - intros md_text pre raw post flow Hl Hp Ht Hr.
    destruct (heading3_element raw Hp Ht) as [B E].
    destruct (parse_around_plain md_text pre raw post flow Hl B Hr)
      as (before & after & H1 & H2 & H3).
    exists before, after. rewrite <- E. repeat split; assumption.
Qed.

(** C9, as the code has it: when the parse returns, a line with leading
    white space whose left-stripped form starts with "## " or "### " has
    given a paragraph made with the body style, and so no heading where
    the body style is not a heading style; the text handed to
    [Paragraph] is the right-stripped line, leading white space
    included. *)
Theorem indented_heading_is_paragraph (md_text : str) (pre : list str)
    (c : char) (rest : str) (post : list str) (flow : list flowable) :
  splitlines md_text = pre ++ (c :: rest) :: post ->
  isspace c = true ->
  startswith (lit "## ") (lstrip (c :: rest)) = true \/
  startswith (lit "### ") (lstrip (c :: rest)) = true ->
  body styles <> h2 styles -> body styles <> h3 styles ->
  parse md_text = Some (Return flow) ->
  startswith_any bullet_prefixes (lstrip (c :: rest)) = false /\
  exists before after,
    parse_lines pre = Some (Return before) /\
    parse_lines post = Some (Return after) /\
    flow = before ++ Paragraph (rstrip (c :: rest)) (body styles) :: after /\
    (forall t, Paragraph (rstrip (c :: rest)) (body styles)
               <> Heading2 styles t) /\
    (forall t, Paragraph (rstrip (c :: rest)) (body styles)
               <> Heading3 styles t) /\
    exists kept, rstrip (c :: rest) = c :: kept.
Proof.
  intros Hl Hc Hh Hb2 Hb3 Hret. set (raw := c :: rest) in *.
  assert (Hn : exists p, startswith (35%N :: p) (lstrip raw) = true).
  { destruct Hh as [H|H]; eexists; exact H. }
  destruct Hn as [p Hn].
  assert (B : is_bullet_line raw = false).
  { unfold is_bullet_line. rewrite <- lstrip_idem.
    exact (number_sign_not_bullet _ _ Hn). }
  split; [exact B|].
  destruct (lstrip raw) as [|d t] eqn:El; [discriminate|].
  assert (Hd : d = 35%N).
  { cbn [startswith] in Hn. apply andb_true_iff in Hn.
    destruct Hn as [Hn _]. apply N.eqb_eq in Hn. congruence. }
  subst d.
  assert (Hs : strip raw = 35%N :: rstrip t).
  { unfold strip. rewrite lstrip_rstrip, El.
    apply rstrip_keep. reflexivity. }
  assert (Hr : rstrip raw = c :: rstrip rest).
  { unfold raw. rewrite rstrip_cons.
    destruct (rstrip rest) eqn:Er; [|reflexivity].
    exfalso. unfold strip, raw in Hs. rewrite rstrip_cons, Er, Hc in Hs.
    discriminate. }
  assert (Hne : N.eqb 35 c = false).
  { apply N.eqb_neq. intros <-. discriminate. }
  assert (E : plain_element styles raw = Paragraph (rstrip raw) (body styles)).
  { unfold plain_element, is_blank_line. rewrite strip_rstrip, Hs, Hr.
    change (lit "## ") with [35; 35; 32]%N.
    change (lit "### ") with [35; 35; 35; 32]%N.
    cbn [startswith]. rewrite Hne. reflexivity. }
  destruct (parse_around_plain md_text pre raw post flow Hl B Hret)
    as (before & after & H1 & H2 & H3).
  exists before, after. rewrite <- E.
  repeat split; try assumption.
  - rewrite E. unfold Heading2. intros u H. injection H as _ H.
    exact (Hb2 H).
  - rewrite E. unfold Heading3. intros u H. injection H as _ H.
    exact (Hb3 H).
  - exists (rstrip rest). exact Hr.
Qed.

Lemma leading_length (lines : list str) :
  length (leading_bullets lines) <= length lines.
Proof.
  induction lines as [|raw rest IH]; [reflexivity|].
  cbn [leading_bullets]. destruct (is_bullet_line raw); cbn [length]; lia.
Qed.

(** C10: with one evaluation of the loop condition per remaining line and
    one more, the inner loop ends; when it ends without exception it has
    moved the index forward by one for each item it appended and not
    past the end.  A pass through the outer loop body ends, and without
    exception it has moved the index forward by at least one and not
    past the end; so the outer loop ends, and the whole parse ends
    within one pass per line. *)
Theorem loops_terminate (lines : list str) (fuel i : nat) (raw : str)
    (flow : list flowable) :
  nth_error lines i = Some raw ->
  length lines - i < fuel ->
  (exists inner,
      bullet_loop paragraph_error styles fuel lines i [] = Some inner /\
      forall i' items,
        inner = Return (i', items) ->
        i <= i' <= length lines /\ length items = i' - i) /\
  (exists pass,
      loop_body paragraph_error styles fuel lines i raw flow = Some pass /\
      forall i' flow',
        pass = Return (i', flow') -> i < i' <= length lines) /\
  (exists out,
      while_loop paragraph_error styles fuel lines i flow = Some out) /\
  (exists out,
      while_loop paragraph_error styles (S (length lines)) lines 0 []
      = Some out).
Proof.
  intros E Hf.
  assert (Hi : i < length lines) by (apply nth_error_Some; congruence).
  pose proof (leading_length (skipn i lines)) as Hrun.
  rewrite length_skipn in Hrun.
  split; [|split; [|split]].
  - rewrite (bullet_loop_run paragraph_error styles fuel lines i [] Hf).
    cbv zeta. eexists. split; [reflexivity|].
    intros i' items H.
    destruct (first_rejected paragraph_error _); [discriminate|].
    injection H as <- <-. cbn [app]. rewrite !length_map. lia.
  - destruct (is_bullet_line raw) eqn:B.
    + rewrite (loop_body_bullet paragraph_error styles _ _ _ _ _ B).
      rewrite (bullet_loop_run paragraph_error styles fuel lines i [] Hf).
      cbv zeta.
      destruct (first_rejected paragraph_error _).
      * eexists. split; [reflexivity|]. discriminate.
      * eexists. split; [reflexivity|]. intros i' flow' H.
        injection H as <- _.
        rewrite (skipn_at _ _ _ E) in *. cbn [leading_bullets] in *.
        rewrite B in *. cbn [length] in *. lia.
    + rewrite (loop_body_plain paragraph_error styles _ _ _ _ _ B).
      eexists. split; [reflexivity|]. intros i' flow' H.
      destruct (rejected paragraph_error _); [discriminate|].
      injection H as <- _. lia.
  - rewrite (while_loop_layout paragraph_error styles fuel lines i flow Hf).
    eexists. reflexivity.
  - rewrite (while_loop_layout paragraph_error styles) by lia.
    eexists. reflexivity.
Qed.

End ParserClaims.

(** ** write_pdf: the clock *)




(** *** Concrete runs *)



(** C4 as it was stated fails on a run with an item whose markup
    ReportLab refuses: the inner loop is left by the exception and no
    list is made. *)
Lemma bullet_run_raises :
  splitlines (lit "- <b>x") = [] ++ [lit "- <b>x"] ++ [] /\
  is_bullet_line (lit "- <b>x") = true /\
  markdown_to_flowables unclosed_bold_error getSampleStyleSheet
    (lit "- <b>x") =
  Some (Raise (Exception "ValueError"
                 (lit "Parse error: saw </para> instead of expected </b>"))).
Proof. repeat split. Qed.

Lemma bullet_run_one_list_witness :
  let md_text := lit "Day 1" ++ nl ++ lit "- Museum" ++ nl ++ lit "  * Lunch  "
                 ++ nl ++ nl ++ lit "Rest." in
  let pre := [lit "Day 1"] in
  let run := [lit "- Museum"; lit "  * Lunch  "] in
  let post := [[]; lit "Rest."] in
  splitlines md_text = pre ++ run ++ post /\
  exists flow before after,
    markdown_to_flowables unclosed_bold_error getSampleStyleSheet md_text
      = Some (Return flow) /\
    flowables_of_lines unclosed_bold_error getSampleStyleSheet pre
      = Some (Return before) /\
    flowables_of_lines unclosed_bold_error getSampleStyleSheet post
      = Some (Return after) /\
    flow = before
             ++ [BulletList getSampleStyleSheet (map bullet_text run);
                 Spacer 1 4]
             ++ after.
Proof.
  cbv zeta. split; [reflexivity|].
  eexists.
  assert (Hret : markdown_to_flowables unclosed_bold_error
                   getSampleStyleSheet
                   (lit "Day 1" ++ nl ++ lit "- Museum" ++ nl
                      ++ lit "  * Lunch  " ++ nl ++ nl ++ lit "Rest.")
                 = Some (Return _)) by reflexivity.
  destruct (proj1 (bullet_run_one_list unclosed_bold_error
                     getSampleStyleSheet)
              (lit "Day 1" ++ nl ++ lit "- Museum" ++ nl ++ lit "  * Lunch  "
                 ++ nl ++ nl ++ lit "Rest.")
              [lit "Day 1"] [lit "- Museum"; lit "  * Lunch  "]
              [[]; lit "Rest."] _ eq_refl ltac:(discriminate)
              ltac:(repeat constructor)
              ltac:(intros pre' raw E; destruct pre' as [|l [|l' pre']];
                    [injection E as <-; reflexivity|discriminate
                    |discriminate])
              ltac:(intros raw post' E; injection E as <- _; reflexivity)
              Hret)
    as (before & after & H1 & H2 & H3).
  exists before, after. repeat split; assumption.
Defined.

Lemma scenario_elements_witness :
  let md_text := lit "Intro" ++ nl ++ lit "   " ++ nl ++ lit "Outro" in
  splitlines md_text = [lit "Intro"] ++ lit "   " :: [lit "Outro"] /\
  is_blank_line (lit "   ") = true /\
  exists flow before after,
    markdown_to_flowables unclosed_bold_error getSampleStyleSheet md_text
      = Some (Return flow) /\
    flowables_of_lines unclosed_bold_error getSampleStyleSheet [lit "Intro"]
      = Some (Return before) /\
    flowables_of_lines unclosed_bold_error getSampleStyleSheet [lit "Outro"]
      = Some (Return after) /\
    flow = before ++ Spacer 1 6 :: after.
Proof.
  cbv zeta. split; [reflexivity|]. split; [reflexivity|].
  eexists.
  assert (Hret : markdown_to_flowables unclosed_bold_error
                   getSampleStyleSheet
                   (lit "Intro" ++ nl ++ lit "   " ++ nl ++ lit "Outro")
                 = Some (Return _)) by reflexivity.
  destruct (proj2 (scenario_elements unclosed_bold_error
                     getSampleStyleSheet)
              (lit "Intro" ++ nl ++ lit "   " ++ nl ++ lit "Outro")
              [lit "Intro"] (lit "   ") [lit "Outro"] _ eq_refl eq_refl Hret)
    as (before & after & H1 & H2 & H3).
  exists before, after. repeat split; assumption.
Defined.

Lemma heading_lines_witness :
  let md_text := lit "Plan" ++ nl ++ lit "##   Trip Overview  " ++ nl
                 ++ lit "- a" in
  let raw := lit "##   Trip Overview  " in
  splitlines md_text = [lit "Plan"] ++ raw :: [lit "- a"] /\
  startswith (lit "## ") raw = true /\
  strip (slice_from 3 raw) = lit "Trip Overview" /\
  exists flow before after,
    markdown_to_flowables unclosed_bold_error getSampleStyleSheet md_text
      = Some (Return flow) /\
    flowables_of_lines unclosed_bold_error getSampleStyleSheet [lit "Plan"]
      = Some (Return before) /\
    flowables_of_lines unclosed_bold_error getSampleStyleSheet [lit "- a"]
      = Some (Return after) /\
    flow = before
             ++ Heading2 getSampleStyleSheet (strip (slice_from 3 raw))
             :: after.
Proof.
  cbv zeta. split; [reflexivity|]. split; [reflexivity|].
  split; [reflexivity|].
  eexists.
  assert (Hret : markdown_to_flowables unclosed_bold_error
                   getSampleStyleSheet
                   (lit "Plan" ++ nl ++ lit "##   Trip Overview  " ++ nl
                      ++ lit "- a")
                 = Some (Return _)) by reflexivity.
  destruct (proj1 (heading_lines unclosed_bold_error getSampleStyleSheet)
              (lit "Plan" ++ nl ++ lit "##   Trip Overview  " ++ nl
                 ++ lit "- a")
              [lit "Plan"] (lit "##   Trip Overview  ") [lit "- a"] _
              eq_refl eq_refl ltac:(discriminate) Hret)
    as (before & after & H1 & H2 & H3).
  exists before, after. repeat split; assumption.
Defined.

(** C6 as it was stated fails on a line made of the marker and white space
    only: the line is right-stripped before the test, so the marker's
    space is gone and the line is a paragraph. *)
Lemma heading_marker_alone :
  startswith (lit "## ") (lit "## ") = true /\
  markdown_to_flowables unclosed_bold_error getSampleStyleSheet (lit "## ") =
    Some (Return [Paragraph (lit "##") (body getSampleStyleSheet)]) /\
  markdown_to_flowables unclosed_bold_error getSampleStyleSheet (lit "## ") <>
    Some (Return
            [Heading2 getSampleStyleSheet
               (strip (slice_from 3 (lit "## ")))]).
Proof.
  split; [reflexivity|]. split; [reflexivity|]. discriminate.
Qed.

(** C9 as it was stated fails on such a line when ReportLab refuses its
    markup: no paragraph is made, the exception leaves the parse. *)
Lemma indented_heading_raises :
  isspace 32%N = true /\
  startswith (lit "## ") (lstrip (lit "  ## <b>x")) = true /\
  markdown_to_flowables unclosed_bold_error getSampleStyleSheet
    (lit "  ## <b>x") =
  Some (Raise (Exception "ValueError"
                 (lit "Parse error: saw </para> instead of expected </b>"))).
Proof. repeat split. Qed.

Lemma indented_heading_is_paragraph_witness :
  let md_text := lit "Notes" ++ nl ++ lit "  ## Day 2  " ++ nl ++ lit "end" in
  splitlines md_text = [lit "Notes"] ++ lit "  ## Day 2  " :: [lit "end"] /\
  exists flow before after,
    markdown_to_flowables unclosed_bold_error getSampleStyleSheet md_text
      = Some (Return flow) /\
    flow = [Paragraph (lit "Notes") (body getSampleStyleSheet);
            Paragraph (lit "  ## Day 2") (body getSampleStyleSheet);
            Paragraph (lit "end") (body getSampleStyleSheet)] /\
    flowables_of_lines unclosed_bold_error getSampleStyleSheet [lit "Notes"]
      = Some (Return before) /\
    flowables_of_lines unclosed_bold_error getSampleStyleSheet [lit "end"]
      = Some (Return after) /\
    flow = before
             ++ Paragraph (rstrip (lit "  ## Day 2  "))
                  (body getSampleStyleSheet) :: after.
Proof.
  cbv zeta. split; [reflexivity|].
  eexists.
  assert (Hret : markdown_to_flowables unclosed_bold_error
                   getSampleStyleSheet
                   (lit "Notes" ++ nl ++ lit "  ## Day 2  " ++ nl
                      ++ lit "end")
                 = Some (Return _)) by reflexivity.
  destruct (indented_heading_is_paragraph unclosed_bold_error
              getSampleStyleSheet
              (lit "Notes" ++ nl ++ lit "  ## Day 2  " ++ nl ++ lit "end")
              [lit "Notes"] 32%N (lit " ## Day 2  ") [lit "end"] _
              eq_refl eq_refl (or_introl eq_refl)
              ltac:(discriminate) ltac:(discriminate) Hret)
    as (_ & before & after & H1 & H2 & H3 & _).
  exists before, after. split; [exact Hret|]. split; [reflexivity|].
  repeat split; assumption.
Defined.

Lemma loops_terminate_witness :
  let lines := [lit "- a"; lit "- b"; lit "c"] in
  nth_error lines 0 = Some (lit "- a") /\
  length lines - 0 < 4 /\
  (exists pass,
      loop_body unclosed_bold_error getSampleStyleSheet 4 lines 0
        (lit "- a") [] = Some pass /\
      forall i' flow', pass = Return (i', flow') -> 0 < i' <= length lines).
Proof.
  cbv zeta. split; [reflexivity|]. split; [cbn; lia|].
  apply (loops_terminate unclosed_bold_error getSampleStyleSheet
           [lit "- a"; lit "- b"; lit "c"] 4 0 (lit "- a") []);
    [reflexivity|cbn; lia].
Defined.
(** ** The completion requester: claims *)

Section RequesterClaims.
Import StripFacts.

Variable Usage : Type.
Variable World : Type.
Variable create : request -> World -> outcome (completion Usage) * World.
Variable SYSTEM_PROMPT : str.

#[local] Abbreviation State := (state Usage World).

(** An answer that is not usable, whether an error or empty content, sends
    the loop on to the remaining models with its error recorded. *)
Lemma try_models_next (user_prompt model_name : str) (rest : list str)
    (st : State) (last_error : option exn)
    (answer : outcome (completion Usage)) (w : World) :
  create (request_for SYSTEM_PROMPT user_prompt model_name) (world st)
    = (answer, w) ->
  usable answer = false ->
  try_models create SYSTEM_PROMPT user_prompt (model_name :: rest) st
    last_error =
  try_models create SYSTEM_PROMPT user_prompt rest
    {| world := w; session := session st;
       issued := issued st
                   ++ [request_for SYSTEM_PROMPT user_prompt model_name] |}
    (Some (recorded_error (model_name, answer))).
Proof.
  intros Hc Hu. cbn [try_models]. rewrite Hc.
  destruct answer as [comp|e]; [|reflexivity].
  cbn [usable] in Hu. cbn [recorded_error].
  destruct (strip (_extract_text_from_chat_completion comp));
    [reflexivity|discriminate].
Qed.

(** A usable answer ends the loop. *)
Lemma try_models_usable (user_prompt model_name : str) (rest : list str)
    (st : State) (last_error : option exn) (comp : completion Usage)
    (w : World) :
  create (request_for SYSTEM_PROMPT user_prompt model_name) (world st)
    = (Return comp, w) ->
  strip (_extract_text_from_chat_completion comp) <> [] ->
  try_models create SYSTEM_PROMPT user_prompt (model_name :: rest) st
    last_error =
  (Return (_extract_text_from_chat_completion comp),
   {| world := w;
      session := {| last_model_used := Some model_name;
                    last_usage := Some (usage comp) |};
      issued := issued st
                  ++ [request_for SYSTEM_PROMPT user_prompt model_name] |}).
Proof.
  intros Hc Hn. cbn [try_models]. rewrite Hc.
  destruct (strip (_extract_text_from_chat_completion comp));
    [congruence|reflexivity].
Qed.

(** The loop passes over a prefix of models none of which is usable. *)
Lemma try_models_skip (user_prompt : str) (pre rest : list str) :
  forall (st : State) (last_error : option exn),
    Forall (@unusable Usage) (fst (answers create SYSTEM_PROMPT user_prompt pre
                            (world st))) ->
    try_models create SYSTEM_PROMPT user_prompt (pre ++ rest) st last_error =
    try_models create SYSTEM_PROMPT user_prompt rest
      {| world := snd (answers create SYSTEM_PROMPT user_prompt pre
                         (world st));
         session := session st;
         issued := issued st
                     ++ map (request_for SYSTEM_PROMPT user_prompt) pre |}
      (last_recorded last_error
         (fst (answers create SYSTEM_PROMPT user_prompt pre (world st)))).
Proof.
  induction pre as [|m pre IH]; intros st last_error Hall.
  - cbn. rewrite app_nil_r. destruct st; reflexivity.
  - cbn [answers] in *.
    destruct (create (request_for SYSTEM_PROMPT user_prompt m) (world st))
      as [answer w1] eqn:Hc.
    destruct (answers create SYSTEM_PROMPT user_prompt pre w1)
      as [more w2] eqn:Ha.
    cbn [fst snd] in *. inversion Hall as [|? ? Hu Hmore]; subst.
    cbn [app]. rewrite (try_models_next _ _ _ _ _ _ _ Hc Hu).
    rewrite IH; cbn [world session issued]; rewrite Ha; [|exact Hmore].
    cbn [fst snd map last_recorded fold_left].
    rewrite <- app_assoc. reflexivity.
Qed.

(** C1: when the models before one are all unusable and that one answers
    with text that is not blank, the function returns that text as
    extracted, records that model as the one used, and has sent requests
    to exactly the models up to that one, in order: none to a later one,
    however many came before. *)
Theorem first_success_wins (user_prompt : str) (pre : list str) (m : str)
    (post : list str) (st : State) (comp : completion Usage) (w : World) :
  Forall (@unusable Usage)
    (fst (answers create SYSTEM_PROMPT user_prompt pre (world st))) ->
  create (request_for SYSTEM_PROMPT user_prompt m)
    (snd (answers create SYSTEM_PROMPT user_prompt pre (world st)))
    = (Return comp, w) ->
  strip (_extract_text_from_chat_completion comp) <> [] ->
  get_travel_plan_markdown create SYSTEM_PROMPT (pre ++ m :: post)
    user_prompt st =
  (Return (_extract_text_from_chat_completion comp),
   {| world := w;
      session := {| last_model_used := Some m;
                    last_usage := Some (usage comp) |};
      issued := issued st
                  ++ map (request_for SYSTEM_PROMPT user_prompt)
                       (pre ++ [m]) |}).
Proof.
  intros Hall Hc Hn. unfold get_travel_plan_markdown.
  rewrite (try_models_skip user_prompt pre (m :: post) st None Hall).
  rewrite (try_models_usable user_prompt m post _ _ comp w);
    [|exact Hc|exact Hn].
  cbn [issued]. rewrite map_app, app_assoc. reflexivity.
Qed.

(** C2: when no model is usable the function raises the error that says
    all attempts failed and carries the error recorded last: the one of
    the last model tried.  Every model has been sent one request, in
    order, the session is as it was, and an answer that is empty is
    passed over the same way as one that is an error. *)
Theorem all_models_exhausted (user_prompt : str) (models : list str)
    (st : State) :
  Forall (@unusable Usage)
    (fst (answers create SYSTEM_PROMPT user_prompt models (world st))) ->
  let attempts :=
    fst (answers create SYSTEM_PROMPT user_prompt models (world st)) in
  get_travel_plan_markdown create SYSTEM_PROMPT models user_prompt st =
  (Raise (all_failed_error (last_recorded None attempts)),
   {| world := snd (answers create SYSTEM_PROMPT user_prompt models
                      (world st));
      session := session st;
      issued := issued st
                  ++ map (request_for SYSTEM_PROMPT user_prompt) models |}) /\
  map fst attempts = models /\
  (attempts = [] -> last_recorded None attempts = None) /\
  (forall earlier model_name e,
      attempts = earlier ++ [(model_name, Raise e)] ->
      last_recorded None attempts = Some e) /\
  (forall earlier model_name comp,
      attempts = earlier ++ [(model_name, Return comp)] ->
      last_recorded None attempts =
      Some (RuntimeError
              (lit "Model '" ++ model_name
                 ++ lit "' returned empty content."))).
Proof.
  intros Hall attempts. split; [|split; [|split; [|split]]].
  - unfold get_travel_plan_markdown.
    rewrite <- (app_nil_r models) at 1.
    rewrite (try_models_skip user_prompt models [] st None Hall).
    reflexivity.
  - unfold attempts. clear. generalize (world st).
    induction models as [|m ms IH]; intros w0; [reflexivity|].
    cbn [answers].
    destruct (create (request_for SYSTEM_PROMPT user_prompt m) w0)
      as [answer w1].
    specialize (IH w1).
    destruct (answers create SYSTEM_PROMPT user_prompt ms w1) as [more w2].
    cbn [fst map] in *. f_equal. exact IH.
  - intros ->. reflexivity.
  - intros earlier model_name e ->. unfold last_recorded.
    rewrite fold_left_app. reflexivity.
  - intros earlier model_name comp ->. unfold last_recorded.
    rewrite fold_left_app. reflexivity.
Qed.

(** C7, as the code has it: content that is a list of parts gives the
    strings of the list and the string [text] fields of its dictionaries,
    joined with newlines and stripped; content that is a plain string is
    given back as it is, not stripped, unless it is blank; either way the
    extracted text, once stripped, is the stripped join of the fragments;
    and the function returns the extracted text as extracted whenever it
    is not blank. *)
Theorem extraction_and_return (txt : content) (more : list content)
    (u : option Usage) (user_prompt model_name : str) (rest : list str)
    (st : State) (w : World) :
  let comp := {| choices := txt :: more; usage := u |} in
  let text := _extract_text_from_chat_completion comp in
  (forall s, txt = CStr s ->
             text = match strip s with [] => [] | _ :: _ => s end) /\
  (forall ps, txt = CList ps ->
              text = strip (join nl (flat_map part_texts ps))) /\
  (forall s d,
      part_texts (PStr s) = [s] /\
      (dict_get (lit "text") d = VStr s -> part_texts (PDict d) = [s]) /\
      (dict_get (lit "text") d = VOther -> part_texts (PDict d) = []) /\
      part_texts POther = []) /\
  strip text = extracted_text_as_specified txt /\
  (create (request_for SYSTEM_PROMPT user_prompt model_name) (world st)
     = (Return comp, w) ->
   strip text <> [] ->
   fst (get_travel_plan_markdown create SYSTEM_PROMPT (model_name :: rest)
          user_prompt st) = Return text).
Proof.
  intros comp text. unfold text, comp, _extract_text_from_chat_completion.
  cbn [choices nth_error].
  split; [|split; [|split; [|split]]].
  - intros s ->. reflexivity.
  - intros ps ->. cbv zeta.
    destruct (strip (join nl (flat_map part_texts ps))); reflexivity.
  - intros s d. cbn [part_texts]. repeat split.
    + intros ->. reflexivity.
    + intros ->. reflexivity.
  - unfold extracted_text_as_specified. destruct txt as [s|ps|].
    + cbn [fragments join]. destruct (strip s) eqn:E; [reflexivity|].
      exact E.
    + cbn [fragments]. cbv zeta.
      destruct (strip (join nl (flat_map part_texts ps))) eqn:E;
        [reflexivity|].
      rewrite <- E. apply strip_idem.
    + reflexivity.
  - intros Hc Hn. unfold get_travel_plan_markdown.
    rewrite (try_models_usable user_prompt model_name rest st None
               {| choices := txt :: more; usage := u |} w Hc Hn).
    reflexivity.
Qed.

End RequesterClaims.
(** *** Concrete runs of the requester *)

Lemma first_success_wins_witness :
  get_travel_plan_markdown demo_create (lit "Be a guide.") FALLBACK_MODELS
    (lit "Paris, 3 days") demo_state =
  (Return (lit "## Trip Overview" ++ nl ++ lit "Paris."),
   {| world := 3;
      session := {| last_model_used := Some (lit "gpt-4-turbo");
                    last_usage := Some (Some tt) |};
      issued := map (request_for (lit "Be a guide.") (lit "Paris, 3 days"))
                  FALLBACK_MODELS |}).
Proof.
  refine (first_success_wins unit nat demo_create (lit "Be a guide.")
            (lit "Paris, 3 days") [lit "gpt-4o"; lit "gpt-4o-mini"]
            (lit "gpt-4-turbo") [] demo_state demo_completion 3 _ _ _).
  - repeat constructor.
  - reflexivity.
  - discriminate.
Defined.

Lemma all_models_exhausted_witness :
  get_travel_plan_markdown demo_create (lit "Be a guide.")
    [lit "gpt-4o"; lit "gpt-4o-mini"] (lit "Paris, 3 days") demo_state =
  (Raise (RuntimeError
            (lit "All model attempts failed. Last error: "
               ++ lit "Model 'gpt-4o-mini' returned empty content.")),
   {| world := 2;
      session := {| last_model_used := None; last_usage := None |};
      issued := map (request_for (lit "Be a guide.") (lit "Paris, 3 days"))
                  [lit "gpt-4o"; lit "gpt-4o-mini"] |}).
Proof.
  refine (proj1 (all_models_exhausted unit nat demo_create
                   (lit "Be a guide.") (lit "Paris, 3 days")
                   [lit "gpt-4o"; lit "gpt-4o-mini"] demo_state _)).
  repeat constructor.
Defined.

Lemma extraction_and_return_witness :
  let comp := {| choices := [CStr (lit " Paris: day 1 ")];
                 usage := Some tt |} in
  let create := fun (_ : request) (n : nat) => (Return comp, S n) in
  create (request_for (lit "Be a guide.") (lit "Paris") (lit "gpt-4o"))
    (world demo_state) = (Return comp, 1) /\
  strip (_extract_text_from_chat_completion comp) <> [] /\
  fst (get_travel_plan_markdown create (lit "Be a guide.") FALLBACK_MODELS
         (lit "Paris") demo_state) = Return (lit " Paris: day 1 ").
Proof.
  cbv zeta. split; [reflexivity|]. split; [discriminate|].
  apply (extraction_and_return unit nat
           (fun (_ : request) (n : nat) =>
              (Return {| choices := [CStr (lit " Paris: day 1 ")];
                         usage := Some tt |}, S n))
           (lit "Be a guide.") (CStr (lit " Paris: day 1 ")) [] (Some tt)
           (lit "Paris") (lit "gpt-4o")
           [lit "gpt-4o-mini"; lit "gpt-4-turbo"] demo_state 1);
    [reflexivity|discriminate].
Defined.

(** C7 as it was stated fails on content that is a plain string with
    white space around it: the string is extracted, and returned, with
    the white space. *)
Lemma plain_string_not_stripped :
  let comp := {| choices := [CStr (lit " Paris ")]; usage := Some tt |} in
  let create := fun (_ : request) (n : nat) => (Return comp, S n) in
  _extract_text_from_chat_completion comp = lit " Paris " /\
  extracted_text_as_specified (CStr (lit " Paris ")) = lit "Paris" /\
  _extract_text_from_chat_completion comp
    <> extracted_text_as_specified (CStr (lit " Paris ")) /\
  fst (get_travel_plan_markdown create (lit "Be a guide.") FALLBACK_MODELS
         (lit "Paris") demo_state) = Return (lit " Paris ").
Proof.
  cbv zeta. repeat split. discriminate.
Qed.

(** * Further properties *)

(** ** The parser *)

Section ParserMore.
Import StripFacts LineFacts SpaceFacts.

Variable paragraph_error : MarkupParser.
Variable styles : StyleSheet.

#[local] Abbreviation parse :=
  (markdown_to_flowables paragraph_error styles).
#[local] Abbreviation parse_lines :=
  (flowables_of_lines paragraph_error styles).

(** What holds of every layout holds of every parse that returns; the
    parse ends, and returns for a text without markup character. *)
Lemma parse_returns (P : list str -> list flowable -> Prop) :
  (forall lines, P lines (layout styles lines)) ->
  forall md_text,
  exists result,
    parse md_text = Some result /\
    (has_markup md_text = false -> exists flow, result = Return flow) /\
    (forall flow, result = Return flow -> P (splitlines md_text) flow).
Proof.
  intros HP md_text.
  destruct (parse_outcome paragraph_error styles md_text)
    as (result & Hp & Hm & Hr).
  exists result. split; [exact Hp|]. split.
  - intros H. eexists. exact (Hm H).
  - intros flow H. rewrite (Hr flow H). apply HP.
Qed.

(** White space at the end of lines does not show in the parse. *)
Theorem trailing_space_ignored (md_text md_text' : str) :
  Forall2 padded (splitlines md_text) (splitlines md_text') ->
  parse md_text' = parse md_text.
Proof.
  intros H. rewrite !markdown_to_flowables_layout. do 2 f_equal.
  apply (layout_respects styles padded padded_bullet padded_text
           (fun r r' Hr _ => padded_plain styles r r' Hr)
           (length (splitlines md_text)) _ _ (le_n _) H).
Qed.

(** White space before a bullet line does not show in the parse: there is
    one level of list, whatever the indentation. *)
Theorem bullet_indentation_ignored (md_text md_text' : str) :
  Forall2 indented (splitlines md_text) (splitlines md_text') ->
  parse md_text' = parse md_text.
Proof.
  intros H. rewrite !markdown_to_flowables_layout. do 2 f_equal.
  apply (layout_respects styles indented indented_bullet
           (fun r r' Hr _ => indented_text r r' Hr)
           (indented_plain styles)
           (length (splitlines md_text)) _ _ (le_n _) H).
Qed.

(** The parse ends, and returns for a text without markup character.
    Every element of a parse that returns is a spacer, a heading with a
    text that is not empty and is stripped, a paragraph with a text that
    is not empty and is right-stripped, or a list of at least one item,
    each stripped. *)
Theorem elements_well_formed (md_text : str) :
  exists result,
    parse md_text = Some result /\
    (has_markup md_text = false -> exists flow, result = Return flow) /\
    (forall flow,
        result = Return flow -> Forall (element_ok styles) flow).
Proof.
  apply (parse_returns (fun _ flow => Forall (element_ok styles) flow)).
  apply layout_ok.
Qed.

(** The parse ends, and returns for a text without markup character.
    Every list of a parse that returns is directly followed by its
    spacer (1, 4), and no list directly follows that spacer: two lists
    are never adjacent. *)
Theorem lists_are_spaced (md_text : str) :
  exists result,
    parse md_text = Some result /\
    (has_markup md_text = false -> exists flow, result = Return flow) /\
    (forall flow, result = Return flow -> lists_spaced flow = true).
Proof.
  apply (parse_returns (fun _ flow => lists_spaced flow = true)).
  apply layout_spaced.
Qed.

(** The parse ends, and returns for a text without markup character.
    The number of elements of a parse that returns differs from the
    number of lines by at most the number of bullet lines, is at most
    twice the number of lines, and is zero exactly when there is no
    line. *)
Theorem element_count (md_text : str) :
  exists result,
    parse md_text = Some result /\
    (has_markup md_text = false -> exists flow, result = Return flow) /\
    (forall flow,
        result = Return flow ->
        let lines := splitlines md_text in
        let bullets := length (filter is_bullet_line lines) in
        length lines <= length flow + bullets /\
        length flow <= length lines + bullets /\
        length flow <= 2 * length lines /\
        Nat.eqb (length flow) 0 = Nat.eqb (length lines) 0).
Proof.
  apply (parse_returns
           (fun lines flow =>
              let bullets := length (filter is_bullet_line lines) in
              length lines <= length flow + bullets /\
              length flow <= length lines + bullets /\
              length flow <= 2 * length lines /\
              Nat.eqb (length flow) 0 = Nat.eqb (length lines) 0)).
  apply layout_count.
Qed.

(** The parse ends, and returns for a text without markup character.
    No text handed to [Paragraph] in a parse that returns holds a line
    boundary: every paragraph, heading and list item is made from one
    line. *)
Theorem texts_on_one_line (md_text : str) :
  exists result,
    parse md_text = Some result /\
    (has_markup md_text = false -> exists flow, result = Return flow) /\
    (forall flow,
        result = Return flow ->
        Forall one_line (flat_map visible_text flow)).
Proof.
  destruct (parse_outcome paragraph_error styles md_text)
    as (result & Hp & Hm & Hr).
  exists result. split; [exact Hp|]. split.
  - intros H. eexists. exact (Hm H).
  - intros flow H. rewrite (Hr flow H).
    rewrite layout_texts. apply Forall_map, Forall_forall.
    intros raw Hin. apply filter_In in Hin. destruct Hin as [Hin _].
    apply line_text_one_line.
    exact (proj1 (Forall_forall _ _) (splitlines_one_line md_text) raw Hin).
Qed.

(** The parse of a text made of given lines, each without line boundary
    and each ended by a newline, is the parse of these lines: the same
    flowables or the same exception. *)
Theorem parse_of_unlines (lines : list str) :
  Forall one_line lines ->
  splitlines (unlines lines) = lines /\
  parse (unlines lines) = parse_lines lines.
Proof.
  intros H. unfold markdown_to_flowables.
  rewrite (splitlines_unlines _ H). split; reflexivity.
Qed.

(** A newline, or a carriage return and a newline, at the end of a text
    that does not end with a line boundary does not show in the parse. *)
Theorem final_newline_ignored (text : str) (c : char) :
  is_linebreak c = false ->
  parse ((text ++ [c]) ++ nl) = parse (text ++ [c]) /\
  parse ((text ++ [c]) ++ [13%N; 10%N]) = parse (text ++ [c]).
Proof.
  intros Hc. unfold markdown_to_flowables.
  rewrite (splitlines_ending nl c text (fun _ _ => eq_refl) Hc).
  rewrite (splitlines_ending [13%N; 10%N] c text (fun _ _ => eq_refl) Hc).
  split; reflexivity.
Qed.

(** Two texts put end to end, where the first does not end with a bullet
    line or the second does not start with one: the parse of the whole
    returns exactly when the parses of the two texts return, and then
    with the flowables of the first followed by those of the second; when
    the parse of the first raises, the parse of the whole raises the
    same exception. *)
Theorem parse_of_concatenation (pre post : list str) :
  Forall one_line pre -> Forall one_line post ->
  ends_plain pre \/ starts_plain post ->
  (forall before after,
      parse (unlines pre) = Some (Return before) ->
      parse (unlines post) = Some (Return after) ->
      parse (unlines pre ++ unlines post) = Some (Return (before ++ after))) /\
  (forall flow,
      parse (unlines pre ++ unlines post) = Some (Return flow) ->
      exists before after,
        parse (unlines pre) = Some (Return before) /\
        parse (unlines post) = Some (Return after) /\
        flow = before ++ after) /\
  (forall e,
      parse (unlines pre) = Some (Raise e) ->
      parse (unlines pre ++ unlines post) = Some (Raise e)).
Proof.
  intros Hpre Hpost Hseam.
  assert (E : unlines pre ++ unlines post = unlines (pre ++ post)).
  { unfold unlines. rewrite map_app, concat_app. reflexivity. }
  rewrite E, !markdown_to_flowables_layout.
  rewrite !splitlines_unlines by (try apply Forall_app; auto).
  rewrite (layout_seam styles _ _ Hseam).
  split; [|split].
  - intros before after Hb Ha. injection Hb as Hb. injection Ha as Ha.
    apply built_return in Hb, Ha. destruct Hb as [-> Hb], Ha as [-> Ha].
    f_equal. apply built_accepted. rewrite first_rejected_app, Hb.
    exact Ha.
  - intros flow H. injection H as H. apply built_app in H.
    destruct H as (Hb & Ha & ->).
    exists (layout styles pre), (layout styles post).
    rewrite Hb, Ha. repeat split.
  - intros e H. injection H as H. f_equal. unfold built in *.
    rewrite first_rejected_app.
    destruct (first_rejected paragraph_error (layout styles pre));
      [exact H|discriminate].
Qed.

End ParserMore.

Lemma trailing_space_ignored_witness :
  let md_text := lit "## Plan" ++ nl ++ lit "- a" ++ nl ++ lit "done" in
  let md_text' :=
    lit "## Plan  " ++ nl ++ lit "- a " ++ nl ++ lit "done" ++ [9%N] in
  markdown_to_flowables unclosed_bold_error getSampleStyleSheet md_text' =
  markdown_to_flowables unclosed_bold_error getSampleStyleSheet md_text.
Proof.
  cbv zeta. apply trailing_space_ignored.
  apply Forall2_cons; [|apply Forall2_cons; [|apply Forall2_cons;
    [|apply Forall2_nil]]].
  - exists (lit "  "). split; reflexivity.
  - exists (lit " "). split; reflexivity.
  - exists [9%N]. split; reflexivity.
Defined.

Lemma bullet_indentation_ignored_witness :
  let md_text := lit "Bring:" ++ nl ++ lit "- a" ++ nl ++ lit "* b" in
  let md_text' := lit "Bring:" ++ nl ++ lit "  - a" ++ nl ++ lit "* b" in
  markdown_to_flowables unclosed_bold_error getSampleStyleSheet md_text' =
  markdown_to_flowables unclosed_bold_error getSampleStyleSheet md_text.
Proof.
  cbv zeta. apply bullet_indentation_ignored.
  apply Forall2_cons; [|apply Forall2_cons; [|apply Forall2_cons;
    [|apply Forall2_nil]]].
  - left. reflexivity.
  - right. split; [reflexivity|]. exists (lit "  "). split; reflexivity.
  - left. reflexivity.
Defined.

Lemma elements_well_formed_witness :
  has_markup scenario = false /\
  exists flow,
    markdown_to_flowables unclosed_bold_error getSampleStyleSheet scenario
      = Some (Return flow) /\
    Forall (element_ok getSampleStyleSheet) flow.
Proof.
  split; [reflexivity|].
  destruct (elements_well_formed unclosed_bold_error getSampleStyleSheet
              scenario) as (result & Hp & Hm & Hr).
  destruct (Hm eq_refl) as [flow E]. exists flow.
  split; [rewrite <- E; exact Hp|exact (Hr flow E)].
Defined.

Lemma lists_are_spaced_witness :
  has_markup scenario = false /\
  exists flow,
    markdown_to_flowables unclosed_bold_error getSampleStyleSheet scenario
      = Some (Return flow) /\
    lists_spaced flow = true.
Proof.
  split; [reflexivity|].
  destruct (lists_are_spaced unclosed_bold_error getSampleStyleSheet
              scenario) as (result & Hp & Hm & Hr).
  destruct (Hm eq_refl) as [flow E]. exists flow.
  split; [rewrite <- E; exact Hp|exact (Hr flow E)].
Defined.

Lemma element_count_witness :
  has_markup scenario = false /\
  length (splitlines scenario) = 6 /\
  length (filter is_bullet_line (splitlines scenario)) = 2 /\
  exists flow,
    markdown_to_flowables unclosed_bold_error getSampleStyleSheet scenario
      = Some (Return flow) /\
    6 <= length flow + 2 /\ length flow <= 6 + 2.
Proof.
  split; [reflexivity|]. split; [reflexivity|]. split; [reflexivity|].
  destruct (element_count unclosed_bold_error getSampleStyleSheet
              scenario) as (result & Hp & Hm & Hr).
  destruct (Hm eq_refl) as [flow E]. exists flow.
  split; [rewrite <- E; exact Hp|].
  destruct (Hr flow E) as (H1 & H2 & _). split; [exact H1|exact H2].
Defined.

Lemma texts_on_one_line_witness :
  has_markup scenario = false /\
  exists flow,
    markdown_to_flowables unclosed_bold_error getSampleStyleSheet scenario
      = Some (Return flow) /\
    Forall one_line (flat_map visible_text flow).
Proof.
  split; [reflexivity|].
  destruct (texts_on_one_line unclosed_bold_error getSampleStyleSheet
              scenario) as (result & Hp & Hm & Hr).
  destruct (Hm eq_refl) as [flow E]. exists flow.
  split; [rewrite <- E; exact Hp|exact (Hr flow E)].
Defined.

Lemma parse_of_unlines_witness :
  let lines := [lit "## Plan"; []; lit "- a"] in
  Forall one_line lines /\
  markdown_to_flowables unclosed_bold_error getSampleStyleSheet
    (unlines lines) =
  flowables_of_lines unclosed_bold_error getSampleStyleSheet lines.
Proof.
  cbv zeta.
  assert (H : Forall one_line [lit "## Plan"; []; lit "- a"])
    by (repeat constructor).
  split; [exact H|].
  exact (proj2 (parse_of_unlines unclosed_bold_error getSampleStyleSheet
                  _ H)).
Defined.

Lemma final_newline_ignored_witness :
  is_linebreak 46%N = false /\
  markdown_to_flowables unclosed_bold_error getSampleStyleSheet
    ((lit "## Plan" ++ nl ++ lit "Done" ++ [46%N]) ++ nl) =
  markdown_to_flowables unclosed_bold_error getSampleStyleSheet
    (lit "## Plan" ++ nl ++ lit "Done" ++ [46%N]).
Proof.
  split; [reflexivity|].
  exact (proj1 (final_newline_ignored unclosed_bold_error
                  getSampleStyleSheet
                  (lit "## Plan" ++ nl ++ lit "Done") 46%N eq_refl)).
Defined.

Lemma parse_of_concatenation_witness :
  let pre := [lit "## Day 1"; lit "- Louvre"] in
  let post := [lit "## Day 2"; lit "- Orsay"] in
  markdown_to_flowables unclosed_bold_error getSampleStyleSheet
    (unlines pre ++ unlines post) =
  Some (Return
          ([Heading2 getSampleStyleSheet (lit "Day 1");
            BulletList getSampleStyleSheet [lit "Louvre"]; Spacer 1 4]
           ++ [Heading2 getSampleStyleSheet (lit "Day 2");
               BulletList getSampleStyleSheet [lit "Orsay"]; Spacer 1 4])).
Proof.
  cbv zeta.
  assert (Hseam : ends_plain [lit "## Day 1"; lit "- Louvre"] \/
                  starts_plain [lit "## Day 2"; lit "- Orsay"]).
  { right. intros raw post' E. injection E as <- _. reflexivity. }
  apply (proj1 (parse_of_concatenation unclosed_bold_error
                  getSampleStyleSheet
                  [lit "## Day 1"; lit "- Louvre"]
                  [lit "## Day 2"; lit "- Orsay"]
                  ltac:(repeat constructor) ltac:(repeat constructor)
                  Hseam));
    reflexivity.
Defined.

(** ** Further properties of the requester *)

Section RequesterMore.
Import StripFacts.

Variable Usage : Type.
Variable World : Type.
Variable create : request -> World -> outcome (completion Usage) * World.
Variable SYSTEM_PROMPT : str.

#[local] Abbreviation State := (state Usage World).

Lemma try_models_discipline (user_prompt : str) (models : list str) :
  forall (st : State) (last_error : option exn),
    let result :=
      fst (try_models create SYSTEM_PROMPT user_prompt models st last_error) in
    let st' :=
      snd (try_models create SYSTEM_PROMPT user_prompt models st last_error) in
    exists k,
      k <= length models /\
      issued st' =
        issued st
          ++ map (request_for SYSTEM_PROMPT user_prompt) (firstn k models) /\
      match result with
      | Return text =>
          strip text <> [] /\
          exists m, nth_error models (pred k) = Some m /\ 0 < k /\
                    last_model_used (session st') = Some m
      | Raise e =>
          k = length models /\ session st' = session st /\
          exists recorded, e = all_failed_error recorded
      end.
Proof.
  induction models as [|m rest IH]; intros st last_error; cbv zeta.
  - exists 0. cbn. rewrite app_nil_r.
    split; [lia|]. split; [reflexivity|]. split; [reflexivity|].
    split; [reflexivity|]. eexists. reflexivity.
  - assert (Hnext : forall st1 le,
               world st1 = snd (create (request_for SYSTEM_PROMPT user_prompt m)
                                  (world st)) ->
               session st1 = session st ->
               issued st1 = issued st
                              ++ [request_for SYSTEM_PROMPT user_prompt m] ->
               let r := try_models create SYSTEM_PROMPT user_prompt rest st1 le in
               exists k,
                 k <= length (m :: rest) /\
                 issued (snd r) =
                   issued st
                     ++ map (request_for SYSTEM_PROMPT user_prompt)
                          (firstn k (m :: rest)) /\
                 match fst r with
                 | Return text =>
                     strip text <> [] /\
                     exists m', nth_error (m :: rest) (pred k) = Some m' /\
                                0 < k /\
                                last_model_used (session (snd r)) = Some m'
                 | Raise e =>
                     k = length (m :: rest) /\
                     session (snd r) = session st /\
                     exists recorded, e = all_failed_error recorded
                 end).
    { intros st1 le _ Hs Hi. cbv zeta.
      destruct (IH st1 le) as (k & Hk & Hiss & Hres).
      exists (S k). split; [cbn [length]; lia|].
      split.
      { rewrite Hiss, Hi, <- app_assoc. reflexivity. }
      destruct (fst (try_models create SYSTEM_PROMPT user_prompt rest st1 le)).
      - destruct Hres as (Hn & m' & Hm & Hpos & Hl).
        split; [exact Hn|]. exists m'.
        destruct k as [|j]; [lia|]. cbn [pred nth_error] in *.
        repeat split; [exact Hm|lia|exact Hl].
      - destruct Hres as (-> & Hse & Hrec).
        repeat split; [congruence|exact Hrec]. }
    cbn [try_models].
    destruct (create (request_for SYSTEM_PROMPT user_prompt m) (world st))
      as [answer w] eqn:Hc.
    destruct answer as [comp|e].
    + destruct (strip (_extract_text_from_chat_completion comp)) eqn:Hs.
      * apply Hnext; reflexivity.
      * exists 1. cbn [fst snd issued session last_model_used length firstn
                       map pred nth_error].
        split; [lia|]. split; [reflexivity|].
        split; [rewrite Hs; discriminate|].
        exists m. repeat split. lia.
    + apply Hnext; reflexivity.
Qed.

(** Whatever the provider answers, a run sends its requests to the models
    in order, one each, to the first [k] of them.  When it returns, the
    text has a visible character and the model recorded as used is the
    last one asked; when it raises, every model has been asked, the
    session is as it was, and the error is the one that says all
    attempts failed. *)
Theorem requests_in_order (user_prompt : str) (models : list str)
    (st : State) :
  let result :=
    fst (get_travel_plan_markdown create SYSTEM_PROMPT models user_prompt
           st) in
  let st' :=
    snd (get_travel_plan_markdown create SYSTEM_PROMPT models user_prompt
           st) in
  exists k,
    k <= length models /\
    issued st' =
      issued st
        ++ map (request_for SYSTEM_PROMPT user_prompt) (firstn k models) /\
    match result with
    | Return text =>
        strip text <> [] /\
        exists m, nth_error models (pred k) = Some m /\ 0 < k /\
                  last_model_used (session st') = Some m
    | Raise e =>
        k = length models /\ session st' = session st /\
        exists recorded, e = all_failed_error recorded
    end.
Proof. apply try_models_discipline. Qed.

(** The extractor never gives white space only: its result is empty or
    has a visible character.  For a list of parts it is stripped; for a
    plain string it is the string or empty; for anything else, and
    without choices, it is empty. *)
Theorem extraction_empty_or_visible (comp : completion Usage) :
  let text := _extract_text_from_chat_completion comp in
  (text = [] \/ strip text <> []) /\
  match nth_error (choices comp) 0 with
  | Some (CList _) => strip text = text
  | Some (CStr s) => text = [] \/ text = s
  | _ => text = []
  end.
Proof.
  cbv zeta. unfold _extract_text_from_chat_completion.
  destruct (nth_error (choices comp) 0) as [[s|ps|]|].
  - destruct (strip s) eqn:E.
    + split; left; reflexivity.
    + split; right; [rewrite E; discriminate|reflexivity].
  - cbv zeta. destruct (strip (join nl (flat_map part_texts ps))) eqn:E.
    + split; [left|]; reflexivity.
    + rewrite <- E. rewrite strip_idem. split; [right|reflexivity].
      rewrite E. discriminate.
  - split; [left|]; reflexivity.
  - split; [left|]; reflexivity.
Qed.

End RequesterMore.
(** ** The form state and the submitted action *)

Section AppMore.
Import StripFacts.

Variable Usage : Type.
Variable World : Type.
Variable create : request -> World -> outcome (completion Usage) * World.
Variable SYSTEM_PROMPT : str.
Variable dedent : str -> str.
Variable usage_str : Usage -> str.
Variable usage_bool : Usage -> bool.
Variable key_error : string -> exn.
Variable build_and_read :
  SimpleDocTemplate -> list flowable -> outcome (list Byte.byte).
Variable now : datetime.
Variable paragraph_error : MarkupParser.

#[local] Abbreviation App := (app_state Usage World).
#[local] Abbreviation main :=
  (main_action create SYSTEM_PROMPT dedent usage_str usage_bool key_error
     build_and_read now paragraph_error).
#[local] Abbreviation generate :=
  (get_travel_plan_markdown create SYSTEM_PROMPT FALLBACK_MODELS).

Lemma setitem_same (k : string) (v : str) (d : form_state) :
  setitem k v d k = Some v.
Proof. unfold setitem. rewrite String.eqb_refl. reflexivity. Qed.

Lemma setitem_other (k k' : string) (v : str) (d : form_state) :
  k' <> k -> setitem k v d k' = d k'.
Proof.
  intros H. unfold setitem. apply String.eqb_neq in H. rewrite H.
  reflexivity.
Qed.

Lemma setdefault_lookup (key k : string) (v : str) (d : form_state) :
  setdefault key v d k =
  match d k with
  | Some x => Some x
  | None => if String.eqb k key then Some v else None
  end.
Proof.
  unfold setdefault, setitem.
  destruct (d key) eqn:Ek; destruct (String.eqb k key) eqn:E;
    try (apply String.eqb_eq in E; subst k; rewrite Ek; reflexivity);
    destruct (d k); reflexivity.
Qed.

Lemma fold_setdefault_lookup (keys : list string) :
  forall (d : form_state) (k : string),
    fold_left (fun d key => setdefault key [] d) keys d k =
    match d k with
    | Some x => Some x
    | None => if existsb (String.eqb k) keys then Some [] else None
    end.
Proof.
  induction keys as [|key keys IH]; intros d k.
  - cbn. destruct (d k); reflexivity.
  - cbn [fold_left existsb]. rewrite IH, setdefault_lookup.
    destruct (d k); [reflexivity|].
    destruct (String.eqb k key); reflexivity.
Qed.

Lemma fold_setitem_lookup (keys : list string) :
  forall (d : form_state) (k : string),
    fold_left (fun d key => setitem key [] d) keys d k =
    if existsb (String.eqb k) keys then Some [] else d k.
Proof.
  induction keys as [|key keys IH]; intros d k; [reflexivity|].
  cbn [fold_left existsb]. rewrite IH. unfold setitem.
  destruct (String.eqb k key); cbn [orb];
    destruct (existsb (String.eqb k) keys); reflexivity.
Qed.

Lemma init_lookup (a : App) (k : string) :
  form (init_form_state a) k =
  match form a k with
  | Some v => Some v
  | None => if is_managed k then Some [] else None
  end.
Proof.
  unfold init_form_state. cbn [form].
  change (setdefault "travel_plan" []
            (fold_left (fun d key => setdefault key [] d) FORM_KEYS (form a)))
    with (fold_left (fun d key => setdefault key [] d)
            (FORM_KEYS ++ ["travel_plan"%string]) (form a)).
  apply fold_setdefault_lookup.
Qed.

Lemma reset_lookup (a : App) (k : string) :
  form (reset_all_callback a) k =
  if is_managed k then Some [] else form a k.
Proof.
  unfold reset_all_callback. cbn [form].
  change (setitem "travel_plan" []
            (fold_left (fun d key => setitem key [] d) FORM_KEYS (form a)))
    with (fold_left (fun d key => setitem key [] d)
            (FORM_KEYS ++ ["travel_plan"%string]) (form a)).
  apply fold_setitem_lookup.
Qed.

(** [init_form_state] gives the empty string to each of its keys that has
    no value, keeps every value there is, touches no other key, nor the
    provider, nor the page; running it again changes nothing. *)
Theorem init_form_state_keeps_values (a : App) (k : string) :
  form (init_form_state a) k =
    match form a k with
    | Some v => Some v
    | None => if is_managed k then Some [] else None
    end /\
  form (init_form_state (init_form_state a)) k = form (init_form_state a) k /\
  run (init_form_state a) = run a /\
  page (init_form_state a) = page a.
Proof.
  split; [apply init_lookup|]. split; [|split; reflexivity].
  rewrite (init_lookup (init_form_state a)), init_lookup.
  destruct (form a k); [reflexivity|].
  destruct (is_managed k); reflexivity.
Qed.

(** [reset_all_callback] gives the empty string to each of its keys,
    whatever they held, touches no other key, forgets the model used and
    the usage, and leaves the provider, the requests sent and the page as
    they were; [init_form_state] after it changes nothing. *)
Theorem reset_all_callback_clears (a : App) (k : string) :
  form (reset_all_callback a) k =
    (if is_managed k then Some [] else form a k) /\
  session (run (reset_all_callback a)) =
    {| last_model_used := None; last_usage := None |} /\
  world (run (reset_all_callback a)) = world (run a) /\
  issued (run (reset_all_callback a)) = issued (run a) /\
  page (reset_all_callback a) = page a /\
  form (init_form_state (reset_all_callback a)) k =
    form (reset_all_callback a) k.
Proof.
  split; [apply reset_lookup|]. repeat (split; [reflexivity|]).
  rewrite init_lookup, reset_lookup.
  destruct (is_managed k); [reflexivity|].
  destruct (form a k); reflexivity.
Qed.

(** After a reset, a run of the script that is not a submission shows the
    invitation to fill in the form and nothing of an earlier plan, and a
    submission shows the warning about missing fields and sends no
    request. *)
Theorem after_reset (a : App) :
  main false (reset_all_callback a) =
    Some (Return tt,
          {| form := form (reset_all_callback a);
             run := run (reset_all_callback a);
             page := page a ++ [fill_in_prompt] |}) /\
  main true (reset_all_callback a) =
    Some (Return tt,
          {| form := form (reset_all_callback a);
             run := run (reset_all_callback a);
             page := page a ++ [incomplete_warning] |}).
Proof. split; reflexivity. Qed.

Ltac run_script :=
  unfold bind, getitem, show, ret, throw, assign, session_now, try_except,
    call_get_travel_plan_markdown;
  cbn [form run page negb].

Lemma write_pdf_total (markdown_text destination filename : str) :
  exists written,
    write_pdf paragraph_error markdown_text destination filename now =
    Some written.
Proof.
  unfold write_pdf. rewrite markdown_to_flowables_layout.
  destruct (new_Paragraph _ _ _); [|eexists; reflexivity].
  destruct (new_Paragraph _ _ _); [|eexists; reflexivity].
  destruct (built _ _); eexists; reflexivity.
Qed.

(** A submission with an empty destination, or an empty number of days,
    shows the warning and does nothing else: no request is sent and the
    session keeps what it held. *)
Theorem incomplete_form_sends_nothing (a : App) (destination : str) :
  form a "destination"%string = Some destination ->
  destination = [] \/ form a "num_days"%string = Some [] ->
  main true a =
  Some (Return tt,
        {| form := form a; run := run a;
           page := page a ++ [incomplete_warning] |}).
Proof.
  intros Hd Hempty. unfold main_action. run_script. rewrite Hd.
  destruct destination as [|c destination].
  - reflexivity.
  - destruct Hempty as [H|H]; [discriminate|].
    run_script. rewrite H. reflexivity.
Qed.

(** When the form is filled in and every model fails, the error of the
    requester leaves the action as it is: the plan stored before stays,
    and the page shows the spinner only. *)
Theorem generation_failure_propagates (a : App)
    (destination num_days special_interests guardrails : str) (e : exn)
    (r : state Usage World) :
  form a "destination"%string = Some destination -> destination <> [] ->
  form a "num_days"%string = Some num_days -> num_days <> [] ->
  form a "special_interests"%string = Some special_interests ->
  form a "guardrails"%string = Some guardrails ->
  generate
    (build_user_prompt dedent destination num_days special_interests
       guardrails) (run a) = (Raise e, r) ->
  main true a =
  Some (Raise e,
        {| form := form a; run := r;
           page := page a
                     ++ [st_spinner
                           (lit "Creating your personalized travel plan...")]
        |}).
Proof.
  intros Hd Hdne Hn Hnne Hs Hg Hgen. unfold main_action. run_script.
  rewrite Hd. destruct destination as [|c destination]; [congruence|].
  run_script. rewrite Hn. destruct num_days as [|c' num_days]; [congruence|].
  cbn [negb]. run_script. rewrite Hd. run_script. rewrite Hn. run_script.
  rewrite Hs. run_script. rewrite Hg. run_script. rewrite Hgen.
  reflexivity.
Qed.

(** What a submission does when the requester returns a text. *)
Lemma main_success (a : App)
    (destination num_days special_interests guardrails text : str)
    (r : state Usage World)
    (written : outcome (SimpleDocTemplate * list flowable * str)) :
  form a "destination"%string = Some destination -> destination <> [] ->
  form a "num_days"%string = Some num_days -> num_days <> [] ->
  form a "special_interests"%string = Some special_interests ->
  form a "guardrails"%string = Some guardrails ->
  generate
    (build_user_prompt dedent destination num_days special_interests
       guardrails) (run a) = (Return text, r) ->
  write_pdf paragraph_error text destination (lit "travel_plan.pdf") now =
    Some written ->
  main true a =
  Some (Return tt,
        {| form := setitem "travel_plan" text (form a);
           run := r;
           page :=
             page a
               ++ plan_widgets
                    (match last_model_used (session r) with
                     | Some m => m
                     | None => lit "unknown"
                     end)
                    (usage_caption usage_str usage_bool
                       (last_usage (session r)))
                    destination text
               ++ match
                    match written with
                    | Return (doc, story, _) => build_and_read doc story
                    | Raise e => Raise e
                    end
                  with
                  | Return data =>
                      [st_download_button
                         ([11015%N; 65039%N]
                            ++ lit " Download Travel Plan PDF")
                         data (download_name destination)
                         (lit "application/pdf")]
                  | Raise e =>
                      [st_error (lit "PDF generation error: " ++ exn_str e);
                       st_info
                         (lit "You can still copy the plan above while we sort out PDF export.")]
                  end |}).
Proof.
  intros Hd Hdne Hn Hnne Hs Hg Hgen Hpdf.
  pose proof (try_models_discipline Usage World create SYSTEM_PROMPT
                (build_user_prompt dedent destination num_days
                   special_interests guardrails)
                FALLBACK_MODELS (run a) None) as Hdisc.
  cbv zeta in Hdisc. destruct Hdisc as (k & _ & _ & Hres).
  unfold get_travel_plan_markdown in Hgen. rewrite Hgen in Hres.
  cbn [fst snd] in Hres. destruct Hres as [Htext _].
  unfold main_action. run_script.
  rewrite Hd. destruct destination as [|c destination]; [congruence|].
  run_script. rewrite Hn. destruct num_days as [|c' num_days]; [congruence|].
  cbn [negb]. run_script. rewrite Hd. run_script. rewrite Hn. run_script.
  rewrite Hs. run_script. rewrite Hg. run_script.
  unfold get_travel_plan_markdown. rewrite Hgen.
  unfold show_plan. run_script.
  rewrite (setitem_same "travel_plan" text (form a)).
  destruct (strip text) eqn:Et; [congruence|].
  unfold plan_widgets, usage_caption, export_pdf. run_script.
  destruct (last_usage (session r)) as [[u|]|];
    [destruct (usage_bool u)| |];
    repeat (run_script;
            first [ rewrite (setitem_same "travel_plan" text (form a))
                  | rewrite (setitem_other "travel_plan" "destination" text
                               (form a)) by discriminate
                  | rewrite Hd
                  | rewrite Hpdf ]);
    (destruct written as [[[doc story] pdf_path]|e];
     [destruct (build_and_read doc story)|]); run_script;
    repeat rewrite <- app_assoc; reflexivity.
Qed.

(** When the requester returns a text and the document is built, the
    text is stored as the plan and shown, and the page ends with the
    download of exactly the bytes built, under a name made from the
    destination. *)
Theorem plan_offered_for_download (a : App)
    (destination num_days special_interests guardrails text : str)
    (r : state Usage World) (doc : SimpleDocTemplate)
    (story : list flowable) (pdf_path : str) (data : list Byte.byte) :
  form a "destination"%string = Some destination -> destination <> [] ->
  form a "num_days"%string = Some num_days -> num_days <> [] ->
  form a "special_interests"%string = Some special_interests ->
  form a "guardrails"%string = Some guardrails ->
  generate
    (build_user_prompt dedent destination num_days special_interests
       guardrails) (run a) = (Return text, r) ->
  write_pdf paragraph_error text destination (lit "travel_plan.pdf") now =
    Some (Return (doc, story, pdf_path)) ->
  build_and_read doc story = Return data ->
  main true a =
  Some (Return tt,
        {| form := setitem "travel_plan" text (form a);
           run := r;
           page :=
             page a
               ++ plan_widgets
                    (match last_model_used (session r) with
                     | Some m => m
                     | None => lit "unknown"
                     end)
                    (usage_caption usage_str usage_bool
                       (last_usage (session r)))
                    destination text
               ++ [st_download_button
                     ([11015%N; 65039%N] ++ lit " Download Travel Plan PDF")
                     data (download_name destination)
                     (lit "application/pdf")] |}).
Proof.
  intros Hd Hdne Hn Hnne Hs Hg Hgen Hpdf Hb.
  rewrite (main_success a destination num_days special_interests guardrails
             text r _ Hd Hdne Hn Hnne Hs Hg Hgen Hpdf).
  rewrite Hb. reflexivity.
Qed.

(** When the requester returns a text and making the document raises,
    be it in [write_pdf] (ReportLab refuses the title or a text of the
    plan) or in building and reading the file, the action still ends
    without error: the text is stored as the plan and shown, and the page
    ends with the error message and the advice, without a download. *)
Theorem export_failure_contained (a : App)
    (destination num_days special_interests guardrails text : str)
    (r : state Usage World) (e : exn) :
  form a "destination"%string = Some destination -> destination <> [] ->
  form a "num_days"%string = Some num_days -> num_days <> [] ->
  form a "special_interests"%string = Some special_interests ->
  form a "guardrails"%string = Some guardrails ->
  generate
    (build_user_prompt dedent destination num_days special_interests
       guardrails) (run a) = (Return text, r) ->
  write_pdf paragraph_error text destination (lit "travel_plan.pdf") now =
    Some (Raise e) \/
  (exists doc story pdf_path,
      write_pdf paragraph_error text destination (lit "travel_plan.pdf") now
        = Some (Return (doc, story, pdf_path)) /\
      build_and_read doc story = Raise e) ->
  main true a =
  Some (Return tt,
        {| form := setitem "travel_plan" text (form a);
           run := r;
           page :=
             page a
               ++ plan_widgets
                    (match last_model_used (session r) with
                     | Some m => m
                     | None => lit "unknown"
                     end)
                    (usage_caption usage_str usage_bool
                       (last_usage (session r)))
                    destination text
               ++ [st_error (lit "PDF generation error: " ++ exn_str e);
                   st_info
                     (lit "You can still copy the plan above while we sort out PDF export.")]
        |}).
Proof.
  intros Hd Hdne Hn Hnne Hs Hg Hgen Hfail.
  destruct Hfail as [Hpdf|(doc & story & pdf_path & Hpdf & Hb)];
    rewrite (main_success a destination num_days special_interests
               guardrails text r _ Hd Hdne Hn Hnne Hs Hg Hgen Hpdf);
    [|rewrite Hb]; reflexivity.
Qed.

(** A submission always comes to an end, and whatever the form holds and
    the provider, ReportLab and the builder do, what it adds to the page
    never holds the warning for an empty response: the requester either
    raises or returns a text with a visible character.  Of the keys of
    the form only the plan can change.  The model used and the usage are
    as they were, unless the requester has returned a text: then the
    model used is one of the models of the list. *)
Theorem empty_response_never_shown (a : App) :
  exists result a' shown,
    main true a = Some (result, a') /\
    page a' = page a ++ shown /\
    ~ In (st_warning (lit "The model returned an empty response.")) shown /\
    (forall k, k <> "travel_plan"%string -> form a' k = form a k) /\
    (session (run a') = session (run a) \/
     exists m, In m FALLBACK_MODELS /\
               last_model_used (session (run a')) = Some m).
Proof.
  assert (Hnone : forall (result : outcome unit) shown,
             ~ In (st_warning (lit "The model returned an empty response."))
                shown ->
             exists result' (a' : App) shown',
               Some (result, {| form := form a; run := run a;
                                page := page a ++ shown |})
               = Some (result', a') /\
               page a' = page a ++ shown' /\
               ~ In (st_warning (lit "The model returned an empty response."))
                  shown' /\
               (forall k, k <> "travel_plan"%string -> form a' k = form a k) /\
               (session (run a') = session (run a) \/
                exists m, In m FALLBACK_MODELS /\
                          last_model_used (session (run a')) = Some m)).
  { intros result shown Hs. eexists _, _, shown.
    split; [reflexivity|]. cbn [page form run].
    split; [reflexivity|]. split; [exact Hs|].
    split; [reflexivity|]. left. reflexivity. }
  assert (Hwarn : ~ In (st_warning
                          (lit "The model returned an empty response."))
                      [incomplete_warning]).
  { intros [H|[]]. discriminate H. }
  assert (Hspin : ~ In (st_warning
                          (lit "The model returned an empty response."))
                      [st_spinner
                         (lit "Creating your personalized travel plan...")]).
  { intros [H|[]]. discriminate H. }
  destruct (form a "destination"%string) as [[|c d]|] eqn:Hd.
  - unfold main_action. run_script. rewrite Hd. run_script.
    apply Hnone, Hwarn.
  - destruct (form a "num_days"%string) as [[|c' n]|] eqn:Hn.
    + unfold main_action. run_script. rewrite Hd. run_script.
      rewrite Hn. run_script. apply Hnone, Hwarn.
    + destruct (form a "special_interests"%string) as [si|] eqn:Hs.
      * destruct (form a "guardrails"%string) as [g|] eqn:Hg.
        -- pose proof (try_models_discipline Usage World create
                         SYSTEM_PROMPT
                         (build_user_prompt dedent (c :: d) (c' :: n) si g)
                         FALLBACK_MODELS (run a) None) as Hdisc.
           cbv zeta in Hdisc. destruct Hdisc as (k & _ & _ & Hres).
           destruct (generate
                       (build_user_prompt dedent (c :: d) (c' :: n) si g)
                       (run a)) as [[text|e] r] eqn:Hgen.
           ++ unfold get_travel_plan_markdown in Hgen.
              rewrite Hgen in Hres. cbn [fst snd] in Hres.
              destruct Hres as (_ & m & Hm & _ & Hused).
              destruct (write_pdf_total text (c :: d) (lit "travel_plan.pdf"))
                as (written & Hpdf).
              rewrite (main_success a (c :: d) (c' :: n) si g text r
                         written Hd ltac:(discriminate) Hn
                         ltac:(discriminate) Hs Hg Hgen Hpdf).
              eexists _, _, _. split; [reflexivity|]. cbn [page form run].
              split; [reflexivity|]. split; [|split].
              ** intros Hin. apply in_app_or in Hin.
                 destruct Hin as [Hin|Hin].
                 --- unfold plan_widgets, usage_caption in Hin.
                     destruct (last_usage (session r)) as [[u|]|];
                       [destruct (usage_bool u)| |]; cbn in Hin;
                       repeat (destruct Hin as [Hin|Hin];
                               [discriminate Hin|]); exact Hin.
                 --- destruct written as [[[doc story] pdf_path]|e];
                       [destruct (build_and_read doc story)|]; cbn in Hin;
                       repeat (destruct Hin as [Hin|Hin];
                               [discriminate Hin|]); exact Hin.
              ** intros k' Hk. apply setitem_other. exact Hk.
              ** right. exists m. split; [|exact Hused].
                 exact (nth_error_In _ _ Hm).
           ++ unfold get_travel_plan_markdown in Hgen.
              rewrite Hgen in Hres. cbn [fst snd] in Hres.
              destruct Hres as (_ & Hsame & _).
              unfold main_action. run_script. rewrite Hd. run_script.
              rewrite Hn. run_script. rewrite Hd. run_script. rewrite Hn.
              run_script. rewrite Hs. run_script. rewrite Hg. run_script.
              unfold get_travel_plan_markdown. rewrite Hgen.
              eexists _, _, _. split; [reflexivity|]. cbn [page form run].
              split; [reflexivity|]. split; [exact Hspin|].
              split; [reflexivity|]. left. exact Hsame.
        -- unfold main_action. run_script. rewrite Hd. run_script.
           rewrite Hn. run_script. rewrite Hd. run_script. rewrite Hn.
           run_script. rewrite Hs. run_script. rewrite Hg.
           eexists _, _, _. split; [reflexivity|]. cbn [page form run].
           split; [reflexivity|]. split; [exact Hspin|].
           split; [reflexivity|]. left. reflexivity.
      * unfold main_action. run_script. rewrite Hd. run_script.
        rewrite Hn. run_script. rewrite Hd. run_script. rewrite Hn.
        run_script. rewrite Hs.
        eexists _, _, _. split; [reflexivity|]. cbn [page form run].
        split; [reflexivity|]. split; [exact Hspin|].
        split; [reflexivity|]. left. reflexivity.
    + unfold main_action. run_script. rewrite Hd. run_script. rewrite Hn.
      eexists _, _, []. split; [reflexivity|]. rewrite app_nil_r.
      cbn [page form run]. split; [reflexivity|]. split; [intros []|].
      split; [reflexivity|]. left. reflexivity.
  - unfold main_action. run_script. rewrite Hd.
    eexists _, _, []. split; [reflexivity|]. rewrite app_nil_r.
    cbn [page form run]. split; [reflexivity|]. split; [intros []|].
    split; [reflexivity|]. left. reflexivity.
Qed.

End AppMore.
(** ** The name of the download *)

Lemma replace_space (s : str) :
  replace_char 32%N (lit "_") s =
  map (fun c => if N.eqb c 32 then 95%N else c) s.
Proof.
  induction s as [|c s IH]; [reflexivity|].
  unfold replace_char in *. cbn [flat_map map]. rewrite IH.
  destruct (N.eqb c 32); reflexivity.
Qed.

Lemma remove_comma (s : str) :
  replace_char 44%N [] s = filter (fun c => negb (N.eqb c 44)) s.
Proof.
  induction s as [|c s IH]; [reflexivity|].
  unfold replace_char in *. cbn [flat_map filter]. rewrite IH.
  destruct (N.eqb c 44); reflexivity.
Qed.

(** The name offered for the download is "travel_guide_", the destination
    with every space turned into an underscore and every comma left out,
    and ".pdf"; it holds neither space nor comma.  Other white space,
    such as a tab, stays. *)
Theorem download_name_clean (destination : str) :
  download_name destination =
    lit "travel_guide_"
    ++ filter (fun c => negb (N.eqb c 44))
         (map (fun c => if N.eqb c 32 then 95%N else c) destination)
    ++ lit ".pdf" /\
  Forall (fun c => c <> 32%N /\ c <> 44%N) (download_name destination) /\
  download_name (destination ++ [9%N]) =
    lit "travel_guide_"
    ++ filter (fun c => negb (N.eqb c 44))
         (map (fun c => if N.eqb c 32 then 95%N else c) destination)
    ++ 9%N :: lit ".pdf".
Proof.
  assert (E : forall d, download_name d =
                lit "travel_guide_"
                ++ filter (fun c => negb (N.eqb c 44))
                     (map (fun c => if N.eqb c 32 then 95%N else c) d)
                ++ lit ".pdf").
  { intros d. unfold download_name. rewrite replace_space, remove_comma.
    reflexivity. }
  split; [apply E|]. split.
  - rewrite E. apply Forall_app. split.
    + repeat constructor; discriminate.
    + apply Forall_app. split.
      * apply Forall_forall. intros c Hc. apply filter_In in Hc.
        destruct Hc as [Hin Hcomma].
        apply negb_true_iff, N.eqb_neq in Hcomma. split; [|exact Hcomma].
        apply in_map_iff in Hin. destruct Hin as (x & Hx & _).
        destruct (N.eqb x 32) eqn:Ex.
        -- subst c. discriminate.
        -- subst c. apply N.eqb_neq. exact Ex.
      * repeat constructor; discriminate.
  - rewrite E, map_app, filter_app, <- !app_assoc. reflexivity.
Qed.

(** ** The user prompt *)

Section PromptMore.
Import StripFacts.

Variable dedent : str -> str.

Lemma rstrip_last (s init : str) (c : char) :
  rstrip s = init ++ [c] -> isspace c = false.
Proof.
  revert init. induction s as [|d s IH]; intros init.
  - destruct init; discriminate.
  - rewrite rstrip_cons. destruct (rstrip s) as [|e r] eqn:E.
    + destruct (isspace d) eqn:Hd; [destruct init; discriminate|].
      destruct init as [|x [|y init]]; try discriminate.
      intros H. injection H as <-. exact Hd.
    + destruct init as [|x init]; [discriminate|].
      cbn [app]. intros H. injection H as _ H. exact (IH init H).
Qed.

Lemma strip_last (s init : str) (c : char) :
  strip s = init ++ [c] -> isspace c = false.
Proof.
  unfold strip. intros H.
  destruct (lstrip_split (rstrip s)) as (ws & E & _).
  rewrite H, app_assoc in E. exact (rstrip_last _ _ _ E).
Qed.

(** The prompt neither starts nor ends with white space, whatever the
    fields hold; and an empty destination, an empty field of interests
    or an empty field of constraints gives the prompt that the default
    text written out would give. *)
Theorem build_user_prompt_stripped
    (destination num_days special_interests guardrails : str) :
  let prompt :=
    build_user_prompt dedent destination num_days special_interests
      guardrails in
  (forall c rest, prompt = c :: rest -> isspace c = false) /\
  (forall init c, prompt = init ++ [c] -> isspace c = false) /\
  build_user_prompt dedent [] num_days special_interests guardrails =
    build_user_prompt dedent (lit "N/A") num_days special_interests
      guardrails /\
  build_user_prompt dedent destination num_days [] guardrails =
    build_user_prompt dedent destination num_days
      (lit "General sightseeing") guardrails /\
  build_user_prompt dedent destination num_days special_interests [] =
    build_user_prompt dedent destination num_days special_interests
      (lit "None specified").
Proof.
  cbv zeta. unfold build_user_prompt.
  split; [|split; [|repeat split]].
  - intros c rest H. exact (LineFacts.lstrip_head _ _ _ H).
  - intros init c H. exact (strip_last _ _ _ H).
Qed.

End PromptMore.

Lemma build_user_prompt_stripped_witness :
  let prompt :=
    build_user_prompt (fun s => s) (lit "Paris") (lit "3") [] [] in
  exists rest, prompt = 84%N :: rest /\ isspace 84%N = false.
Proof.
  cbv zeta. eexists. split; [reflexivity|].
  exact (proj1 (build_user_prompt_stripped (fun s => s) (lit "Paris")
                  (lit "3") [] []) 84%N _ eq_refl).
Defined.

(** *** Concrete runs *)

Lemma incomplete_form_sends_nothing_witness :
  let a := {| form := setitem "num_days" [] demo_form;
              run := demo_state; page := [] |} in
  main_action demo_create (lit "Be a guide.") (fun s => s)
    (fun _ => lit "usage") (fun _ => true) demo_key_error demo_build
    demo_now unclosed_bold_error true a =
  Some (Return tt,
        {| form := form a; run := demo_state;
           page := [incomplete_warning] |}).
Proof.
  cbv zeta.
  apply (incomplete_form_sends_nothing unit nat demo_create
           (lit "Be a guide.") (fun s => s) (fun _ => lit "usage")
           (fun _ => true) demo_key_error demo_build
           demo_now unclosed_bold_error
           {| form := setitem "num_days" [] demo_form;
              run := demo_state; page := [] |}
           (lit "Paris, France")).
  - reflexivity.
  - right. reflexivity.
Defined.

Lemma generation_failure_propagates_witness :
  exists e r,
    main_action demo_refusing_create (lit "Be a guide.") (fun s => s)
      (fun _ => lit "usage") (fun _ => true) demo_key_error demo_build
      demo_now unclosed_bold_error true demo_app =
    Some (Raise e,
          {| form := demo_form; run := r;
             page := [st_spinner
                        (lit "Creating your personalized travel plan...")]
          |}) /\
    length (issued r) = 3.
Proof.
  eexists _, _. split.
  - apply (generation_failure_propagates unit nat demo_refusing_create
             (lit "Be a guide.") (fun s => s) (fun _ => lit "usage")
             (fun _ => true) demo_key_error demo_build
             demo_now unclosed_bold_error demo_app
             (lit "Paris, France") (lit "3") (lit "Museums") []);
      try reflexivity; discriminate.
  - reflexivity.
Defined.

Lemma plan_offered_for_download_witness :
  exists a',
    main_action demo_create (lit "Be a guide.") (fun s => s)
      (fun _ => lit "usage") (fun _ => true) demo_key_error demo_build
      demo_now unclosed_bold_error true demo_app = Some (Return tt, a') /\
    form a' "travel_plan"%string =
      Some (lit "## Trip Overview" ++ nl ++ lit "Paris.") /\
    last (page a') fill_in_prompt =
      st_download_button
        ([11015%N; 65039%N] ++ lit " Download Travel Plan PDF")
        [Byte.x25; Byte.x50; Byte.x44; Byte.x46]
        (lit "travel_guide_Paris_France.pdf") (lit "application/pdf").
Proof.
  eexists. split.
  - eapply (plan_offered_for_download unit nat demo_create
              (lit "Be a guide.") (fun s => s) (fun _ => lit "usage")
              (fun _ => true) demo_key_error demo_build
              demo_now unclosed_bold_error demo_app
              (lit "Paris, France") (lit "3") (lit "Museums") []);
      try reflexivity; discriminate.
  - split; reflexivity.
Defined.

Lemma export_failure_contained_witness :
  let a := {| form := setitem "destination" (lit "<b>Rome") demo_form;
              run := demo_state; page := [] |} in
  exists a',
    main_action demo_create (lit "Be a guide.") (fun s => s)
      (fun _ => lit "usage") (fun _ => true) demo_key_error
      demo_build demo_now unclosed_bold_error true a =
    Some (Return tt, a') /\
    form a' "travel_plan"%string =
      Some (lit "## Trip Overview" ++ nl ++ lit "Paris.") /\
    removelast (page a') <> [] /\
    last (removelast (page a')) fill_in_prompt =
      st_error
        (lit "PDF generation error: Parse error: saw </para> instead of expected </b>") /\
    last (page a') fill_in_prompt =
      st_info
        (lit "You can still copy the plan above while we sort out PDF export.").
Proof.
  cbv zeta. eexists. split.
  - eapply (export_failure_contained unit nat demo_create
              (lit "Be a guide.") (fun s => s) (fun _ => lit "usage")
              (fun _ => true) demo_key_error demo_build
              demo_now unclosed_bold_error
              {| form := setitem "destination" (lit "<b>Rome") demo_form;
                 run := demo_state; page := [] |}
              (lit "<b>Rome") (lit "3") (lit "Museums") []);
      try reflexivity; try discriminate.
    left. reflexivity.
  - repeat split. discriminate.
Defined.
